(** * Interactive Graph Plotter: series builder and chart data adapter

    A shallow embedding of [Graph] (the component of the plotter that
    turns [GraphControls] into chart data) and of the JavaScript built-ins
    it calls, followed by the properties of the series builder, the
    expression sampler, the literal parser and the chart data adapter.

    JavaScript numbers are IEEE 754 binary64 values: they are modelled by
    Rocq's primitive [float].  JavaScript strings are modelled by [string];
    an [ascii] stands for the code unit of the same number, so the model
    covers the strings whose code units are all below 256. *)

From Stdlib Require Import ZArith Floats Uint63 Ascii String.
From stdpp Require Import base tactics option list relations.

Local Open Scope string_scope.
Local Open Scope Z_scope.

#[local] Set Warnings "-inexact-float".

(** ** JavaScript numbers *)

Module Num.

(** [isNaN] and [isFinite] applied to a number. *)
Definition isNaN (v : float) : bool := PrimFloat.is_nan v.
Definition isFinite (v : float) : bool := PrimFloat.is_finite v.

(** The number a non-negative array index or array length denotes. *)
Definition of_Z (z : Z) : float :=
  SF2Prim (binary_normalize prec emax z 0 false).
Definition of_nat (n : nat) : float := of_Z (Z.of_nat n).

(** The number nearest to [(-1)^neg * n / d] (ties to even), for [d > 0]:
    the rounding every decimal literal goes through. *)
Definition of_ratio (neg : bool) (n d : Z) : float :=
  match n with
  | Z0 => if neg then PrimFloat.neg_zero else PrimFloat.zero
  | _ =>
      let '(q, e, l) := SFdiv_core_binary prec emax n 0 d 0 in
      SF2Prim (binary_round_aux prec emax neg q e l)
  end.

(** [Math.abs] and [Math.min] on two arguments. *)
Definition abs (v : float) : float := PrimFloat.abs v.

Definition min (a b : float) : float :=
  if PrimFloat.is_nan a || PrimFloat.is_nan b then PrimFloat.nan
  else if PrimFloat.ltb a b then a
  else if PrimFloat.ltb b a then b
  else if PrimFloat.get_sign a then a else b.

End Num.

(** ** JavaScript strings *)

Module Str.

Definition code (c : ascii) : Z := Z.of_N (N_of_ascii c).
Definition chr (z : Z) : ascii := ascii_of_N (Z.to_N z).

Definition rev (s : string) : string :=
  string_of_list_ascii (List.rev (list_ascii_of_string s)).

(** WhiteSpace and LineTerminator code units (those below 256): TAB, LF, VT,
    FF, CR, SP and NBSP. *)
Definition is_space (c : ascii) : bool :=
  let n := code c in
  ((9 <=? n) && (n <=? 13)) || (n =? 32) || (n =? 160).

Fixpoint trimStart (s : string) : string :=
  match s with
  | String c r => if is_space c then trimStart r else s
  | EmptyString => s
  end.

Definition trimEnd (s : string) : string := rev (trimStart (rev s)).

(** [String.prototype.trim]. *)
Definition trim (s : string) : string := trimEnd (trimStart s).

(** [String.prototype.toLowerCase] on code units below 256: the letters A-Z
    and the Latin-1 capitals other than the multiplication sign. *)
Definition lower (c : ascii) : ascii :=
  let n := code c in
  if ((65 <=? n) && (n <=? 90))
     || ((192 <=? n) && (n <=? 222) && negb (n =? 215))
  then chr (n + 32) else c.

Fixpoint toLowerCase (s : string) : string :=
  match s with
  | String c r => String (lower c) (toLowerCase r)
  | EmptyString => EmptyString
  end.

(** [s.split(sep)] for a one-character separator: the pieces between the
    separators; the empty string gives one empty piece.  [cur] holds the
    piece being read, reversed. *)
Fixpoint split_go (sep : ascii) (s : string) (cur : string) : list string :=
  match s with
  | EmptyString => [rev cur]
  | String c r =>
      if Ascii.eqb c sep then rev cur :: split_go sep r EmptyString
      else split_go sep r (String c cur)
  end.

Definition split (sep : ascii) (s : string) : list string :=
  split_go sep s EmptyString.

(** ToBoolean of a string: only the empty string is falsy. *)
Definition truthy (s : string) : bool :=
  match s with EmptyString => false | _ => true end.

(** [a || b] on strings. *)
Definition or_else (a b : string) : string := if truthy a then a else b.

(** The decimal digits of a non-negative integer. *)
Fixpoint digits_go (fuel : nat) (n : Z) (acc : string) : string :=
  match fuel with
  | O => acc
  | S fuel' =>
      let acc' := String (chr (48 + n mod 10)) acc in
      if n / 10 =? 0 then acc' else digits_go fuel' (n / 10) acc'
  end.

Definition decimal (n : Z) : string :=
  digits_go (S (Z.to_nat (Z.log2 n))) n EmptyString.

Definition is_digit (c : ascii) : bool :=
  (48 <=? code c) && (code c <=? 57).

(** The longest run of decimal digits at the head of [s], as the value it
    denotes after the digits read so far ([acc]) and the number of digits,
    and what follows it. *)
Fixpoint span_digits (s : string) (acc : Z) (count : nat) : Z * nat * string :=
  match s with
  | String c r =>
      if is_digit c then span_digits r (10 * acc + (code c - 48)) (S count)
      else (acc, count, s)
  | EmptyString => (acc, count, s)
  end.

End Str.

(** ** Number built-ins that read or write strings *)

Module NumStr.

(** The number a decimal literal with digits [m] and decimal exponent [e]
    denotes. *)
Definition of_decimal (neg : bool) (m e : Z) : float :=
  if 0 <=? e then Num.of_ratio neg (m * 10 ^ e) 1
  else Num.of_ratio neg m (10 ^ (- e)).

(** The ExponentPart at the head of [s], if there is one: [e] or [E], an
    optional sign and at least one digit. *)
Definition exponent_part (s : string) : Z :=
  match s with
  | String c r =>
      if Ascii.eqb c "e" || Ascii.eqb c "E" then
        let '(neg, r') :=
          match r with
          | String "-" r' => (true, r')
          | String "+" r' => (false, r')
          | _ => (false, r)
          end in
        let '(v, k, _) := Str.span_digits r' 0 O in
        match k with
        | O => 0
        | _ => if neg then - v else v
        end
      else 0
  | EmptyString => 0
  end.

(** [parseFloat]: leading white space is skipped, the longest prefix that is
    a StrDecimalLiteral is read and rounded to the nearest number; NaN when
    no prefix is one. *)
Definition parseFloat (s : string) : float :=
  let t := Str.trimStart s in
  let '(neg, u) :=
    match t with
    | String "-" r => (true, r)
    | String "+" r => (false, r)
    | _ => (false, t)
    end in
  if String.prefix "Infinity" u then
    if neg then PrimFloat.neg_infinity else PrimFloat.infinity
  else
    let '(ip, ni, r1) := Str.span_digits u 0 O in
    let '(m, nf, r2) :=
      match r1 with
      | String "." r =>
          let '(m, k, r2) := Str.span_digits r ip ni in (m, (k - ni)%nat, r2)
      | _ => (ip, O, r1)
      end in
    match (ni + nf)%nat with
    | O => PrimFloat.nan
    | _ => of_decimal neg m (exponent_part r2 - Z.of_nat nf)
    end.

(** The exact value of a finite non-zero number with mantissa [m] and binary
    exponent [e], as a fraction. *)
Definition ratio (m : positive) (e : Z) : Z * Z :=
  if 0 <=? e then (Z.pos m * 2 ^ e, 1) else (Z.pos m, 2 ^ (- e)).

(** Number::toString of a positive integer [X >= 10^21] that is the value of
    the number [x]: the fewest digits [s] (at most 17) such that
    [s * 10^(n-k)] rounds to [x], then exponent notation. *)
Definition exp_notation (s : Z) (n : Z) : string :=
  match Str.decimal s with
  | String d EmptyString => String d ("e+" ++ Str.decimal (n - 1))
  | String d r => String d ("." ++ r ++ "e+" ++ Str.decimal (n - 1))
  | EmptyString => EmptyString
  end.

Definition round_trips (x : float) (s p : Z) : bool :=
  PrimFloat.eqb (Num.of_Z (s * 10 ^ p)) x.

Fixpoint shortest (fuel : nat) (x : float) (X nd k : Z) : string :=
  match fuel with
  | O => Str.decimal X
  | S fuel' =>
      let p := nd - k in
      let s0 := X / 10 ^ p in
      let s1 := s0 + 1 in
      let ok0 := (10 ^ (k - 1) <=? s0) && round_trips x s0 p in
      let ok1 := (s1 <? 10 ^ k) && round_trips x s1 p in
      let d0 := X - s0 * 10 ^ p in
      let d1 := s1 * 10 ^ p - X in
      if ok0 && ok1 then
        if d0 <? d1 then exp_notation s0 nd
        else if d1 <? d0 then exp_notation s1 nd
        else exp_notation (if Z.even s0 then s0 else s1) nd
      else if ok0 then exp_notation s0 nd
      else if ok1 then exp_notation s1 nd
      else shortest fuel' x X nd (k + 1)
  end.

Definition toString_large (x : float) (X : Z) : string :=
  let nd := Z.of_nat (String.length (Str.decimal X)) in
  if round_trips x 1 nd then exp_notation 1 (nd + 1)
  else shortest 17 x X nd 1.

(** The digits [ds] with zeros in front to make more than [f] of them. *)
Definition pad (f : nat) (ds : string) : string :=
  let k := String.length ds in
  if (k <=? f)%nat
  then string_of_list_ascii (List.repeat "0"%char (f + 1 - k)) ++ ds
  else ds.

(** A point before the last [f] of the digits [ds]. *)
Definition point (f : nat) (ds : string) : string :=
  let k := String.length ds in
  match f with
  | O => ds
  | _ => String.substring 0 (k - f) ds ++ "." ++ String.substring (k - f) f ds
  end.

(** The integer nearest to [num / den * 10^f], the larger one at a tie. *)
Definition scaled (num den : Z) (f : nat) : Z :=
  (2 * 10 ^ Z.of_nat f * num + den) / (2 * den).

(** [x.toFixed(f)]: NaN and the infinities print as such; a number of
    absolute value at least [10^21] prints as Number::toString does; any other
    prints the integer nearest to [|x| * 10^f] with a point before its last
    [f] digits, after a minus sign when [x] is below zero. *)
Definition toFixed (x : float) (f : nat) : string :=
  match Prim2SF x with
  | S754_nan => "NaN"
  | S754_infinity false => "Infinity"
  | S754_infinity true => "-Infinity"
  | S754_zero _ => point f (pad f (Str.decimal 0))
  | S754_finite s m e =>
      let '(num, den) := ratio m e in
      (if s then "-" else "")
      ++ (if 10 ^ 21 * den <=? num
          then toString_large (PrimFloat.abs x) (num / den)
          else point f (pad f (Str.decimal (scaled num den f))))
  end.

End NumStr.

(** ** types.ts *)

Module GraphType.
Inductive t : Set :=
| line | bar | scatter | pie | doughnut | radar
| area | histogram | bubble | step | polar.

#[global] Instance eq_dec : EqDecision t.
Proof. solve_decision. Defined.
End GraphType.

Abbreviation GraphType := GraphType.t.

Record GraphControls : Set := {
  type : GraphType;
  equation : string;
  data : string;
  xMin : float;
  xMax : float;
  step : float
}.

(** ** The [Graph] component *)

(** The element type of [scatterData]: [{ x: number; y: number }]. *)
Module XY.
Record t : Set := mk { x : float; y : float }.
End XY.

(** What the first [useMemo] of [Graph] returns. *)
Record Series : Set := {
  points : list float;
  labels : list string;
  scatterData : list XY.t
}.

(** The [error] state of the component: [string | null]. *)
Definition ErrorState : Set := option string.

(** [if (error)] in [renderChart]: a message is shown when the state holds a
    truthy string. *)
Definition shown (error : ErrorState) : bool :=
  match error with
  | Some m => Str.truthy m
  | None => false
  end.

(** The outcome of a call of [math.evaluate]: it throws or it returns.  The
    value returned is a number, as the evaluator's contract has it
    ([evaluate(expr, {x}) -> real]). *)
Inductive EvalResult : Set :=
| Threw
| Returned (y : float).

(** [parseData]; neither [split], [map] nor [filter] throws, so its [catch]
    is never entered. *)
Definition parseData (data : string) : list float :=
  List.filter (fun val => negb (Num.isNaN val))
    (List.map (fun val => NumStr.parseFloat (Str.trim val)) (Str.split "," data)).

(** Code run against the [error] state of the component that may fail to
    return: [None] stands for a run that has not finished within the fuel
    given to it. *)
Definition Run (A : Type) : Type := ErrorState -> option (A * ErrorState).

#[global] Instance run_ret : MRet Run :=
  fun A (a : A) e => Some (a, e).

#[global] Instance run_bind : MBind Run :=
  fun A B (k : A -> Run B) (m : Run A) e =>
    match m e with
    | Some (a, e') => k a e'
    | None => None
    end.

Definition setError (v : ErrorState) : Run unit := fun _ => Some (tt, v).

(** A computation that does not touch the state, and may not finish. *)
Definition lift {A} (o : option A) : Run A :=
  fun e => match o with Some a => Some (a, e) | None => None end.

Definition equationTypes : list GraphType :=
  [GraphType.line; GraphType.area; GraphType.scatter; GraphType.bubble;
   GraphType.step].

Definition defaultResult : Series :=
  {| points := []; labels := []; scatterData := [] |}.

Section Graph.

(** [math.evaluate(expr, { x })], of the mathjs library. *)
Variable evaluate : string -> float -> EvalResult.

(** The body of the sampling loop at [x]: the three arrays after it. *)
Definition loop_body (expr : string) (x : float) (s : Series) : Series :=
  match evaluate expr x with
  | Returned y =>
      if negb (Num.isNaN y) && Num.isFinite y then
        {| points := points s ++ [y];
           labels := labels s ++ [NumStr.toFixed x 1];
           scatterData := scatterData s ++ [XY.mk x y] |}
      else s
  | Threw => s
  end.

(** [for (let x = ...; x <= xMax; x += step) { ... }], from the value [x] of
    the loop variable and the arrays [s]. *)
Fixpoint for_loop (fuel : nat) (expr : string) (xMax step : float)
    (x : float) (s : Series) : option Series :=
  match fuel with
  | O => None
  | S fuel' =>
      if PrimFloat.leb x xMax then
        for_loop fuel' expr xMax step (PrimFloat.add x step) (loop_body expr x s)
      else Some s
  end.

(** The callback of the first [useMemo].  Every call that can throw sits in
    an inner [try], so the outer [catch] is never entered. *)
Definition build (fuel : nat) (controls : GraphControls) : Run Series :=
  if negb (bool_decide (type controls ∈ equationTypes)) then
    let data := parseData (Str.or_else (data controls) "") in
    if (length data =? 0)%nat then
      setError (Some "Please enter valid comma-separated numbers") ;;
      mret defaultResult
    else
      setError None ;;
      mret {| points := data;
             labels := imap (fun i _ => "Value " ++ Str.decimal (Z.of_nat i + 1)) data;
             scatterData := imap (fun x y => XY.mk (Num.of_nat x) y) data |}
  else
    let expr := Str.trim (Str.toLowerCase (equation controls)) in
    if negb (Str.truthy expr) then
      setError (Some "Please enter an equation") ;;
      mret defaultResult
    else
      match evaluate expr 1%float with
      | Threw =>
          setError (Some "Invalid equation format") ;;
          mret defaultResult
      | Returned _ =>
          s ← lift (for_loop fuel expr (xMax controls) (step controls)
                      (xMin controls) defaultResult);
          if (length (points s) =? 0)%nat then
            setError (Some "No valid points generated") ;;
            mret defaultResult
          else
            setError None ;;
            mret s
      end.

End Graph.

(** ** The builder, call by call *)

(** [controls.equation] is free text handed to [math.evaluate], and the
    expression language of mathjs has functions, [random()] among them,
    whose value is drawn anew at each call.  To compare two runs of the
    callback, it is given here the answer of each call of [math.evaluate] by
    the number of the call in the run: call 0 is the test at [x = 1], call
    [k + 1] is the one of the iteration number [k] of the loop. *)
Section Calls.

Variable evaluate : nat -> string -> float -> EvalResult.

(** The loop from the value [x] of the loop variable, the arrays [s] and
    the number [call] of the next call. *)
Fixpoint for_loop_calls (fuel call : nat) (expr : string) (xMax step : float)
    (x : float) (s : Series) : option Series :=
  match fuel with
  | O => None
  | S fuel' =>
      if PrimFloat.leb x xMax then
        for_loop_calls fuel' (S call) expr xMax step (PrimFloat.add x step)
          (loop_body (evaluate call) expr x s)
      else Some s
  end.

(** The callback of the first [useMemo], call by call. *)
Definition build_calls (fuel : nat) (controls : GraphControls) : Run Series :=
  if negb (bool_decide (type controls ∈ equationTypes)) then
    let data := parseData (Str.or_else (data controls) "") in
    if (length data =? 0)%nat then
      setError (Some "Please enter valid comma-separated numbers") ;;
      mret defaultResult
    else
      setError None ;;
      mret {| points := data;
             labels := imap (fun i _ => "Value " ++ Str.decimal (Z.of_nat i + 1)) data;
             scatterData := imap (fun x y => XY.mk (Num.of_nat x) y) data |}
  else
    let expr := Str.trim (Str.toLowerCase (equation controls)) in
    if negb (Str.truthy expr) then
      setError (Some "Please enter an equation") ;;
      mret defaultResult
    else
      match evaluate 0%nat expr 1%float with
      | Threw =>
          setError (Some "Invalid equation format") ;;
          mret defaultResult
      | Returned _ =>
          s ← lift (for_loop_calls fuel 1 expr (xMax controls) (step controls)
                      (xMin controls) defaultResult);
          if (length (points s) =? 0)%nat then
            setError (Some "No valid points generated") ;;
            mret defaultResult
          else
            setError None ;;
            mret s
      end.

End Calls.

(** The chart data handed to react-chartjs-2.  The model keeps the fields
    that carry data and those whose value depends on the graph type; border
    and hover colours and widths, constant within each [case], are left
    out. *)
Module Chart.

(** A point of a scatter or bubble dataset: [{ x, y, r }]. *)
Record Point : Set := mkPoint { x : float; y : float; r : float }.

Inductive Data : Set :=
| Values (v : list float)
| Points (p : list Point).

(** [backgroundColor]: one colour or one per value. *)
Inductive Color : Set :=
| One (c : string)
| Palette (cs : list string).

Record Dataset : Set := {
  label : option string;
  data : Data;
  backgroundColor : Color;
  tension : option float;
  fill : option bool;
  stepped : option bool;
  barPercentage : option float;
  categoryPercentage : option float;
  hoverRadius : option float
}.

Record t : Set := {
  labels : option (list string);
  datasets : list Dataset
}.

End Chart.

Definition colors : list string :=
  ["rgba(0, 255, 255, 0.8)"; "rgba(255, 99, 132, 0.8)";
   "rgba(255, 206, 86, 0.8)"; "rgba(75, 192, 192, 0.8)";
   "rgba(153, 102, 255, 0.8)"; "rgba(255, 159, 64, 0.8)"].

(** The [r] of a point of the [scatter] and [bubble] cases. *)
Definition radius (ty : GraphType) (point : XY.t) : float :=
  if bool_decide (ty = GraphType.bubble)
  then Num.min (Num.abs (XY.y point) * 2)%float 20%float
  else 4%float.

(** The callback of the second [useMemo].  [GraphType] has the eleven kinds
    of the [case]s, so the [default] of the [switch] is never taken. *)
Definition chartData (controls : GraphControls) (s : Series) : Chart.t :=
  let ty := type controls in
  match ty with
  | GraphType.line | GraphType.area | GraphType.step =>
      {| Chart.labels := Some (labels s);
         Chart.datasets := [
           {| Chart.label := Some (Str.or_else (equation controls) "Values");
              Chart.data := Chart.Values (points s);
              Chart.backgroundColor :=
                Chart.One (if bool_decide (ty = GraphType.area)
                           then "rgba(0, 255, 255, 0.1)" else "transparent");
              Chart.tension :=
                Some (if bool_decide (ty = GraphType.step) then 0 else 0.4)%float;
              Chart.fill := Some (bool_decide (ty = GraphType.area));
              Chart.stepped := Some (bool_decide (ty = GraphType.step));
              Chart.barPercentage := None;
              Chart.categoryPercentage := None;
              Chart.hoverRadius := None |}] |}
  | GraphType.bar | GraphType.histogram =>
      {| Chart.labels := Some (labels s);
         Chart.datasets := [
           {| Chart.label := Some "Values";
              Chart.data := Chart.Values (points s);
              Chart.backgroundColor := Chart.Palette colors;
              Chart.tension := None;
              Chart.fill := None;
              Chart.stepped := None;
              Chart.barPercentage :=
                Some (if bool_decide (ty = GraphType.histogram) then 1.0 else 0.8)%float;
              Chart.categoryPercentage :=
                Some (if bool_decide (ty = GraphType.histogram) then 1.0 else 0.8)%float;
              Chart.hoverRadius := None |}] |}
  | GraphType.scatter | GraphType.bubble =>
      {| Chart.labels := None;
         Chart.datasets := [
           {| Chart.label := Some (Str.or_else (equation controls) "Values");
              Chart.data :=
                Chart.Points
                  (map (fun point =>
                          Chart.mkPoint (XY.x point) (XY.y point) (radius ty point))
                     (scatterData s));
              Chart.backgroundColor := Chart.One "rgba(0, 255, 255, 0.6)";
              Chart.tension := None;
              Chart.fill := None;
              Chart.stepped := None;
              Chart.barPercentage := None;
              Chart.categoryPercentage := None;
              Chart.hoverRadius :=
                if bool_decide (ty = GraphType.bubble) then None else Some 8%float |}] |}
  | GraphType.pie | GraphType.doughnut | GraphType.polar =>
      {| Chart.labels := Some (labels s);
         Chart.datasets := [
           {| Chart.label := None;
              Chart.data := Chart.Values (points s);
              Chart.backgroundColor := Chart.Palette colors;
              Chart.tension := None;
              Chart.fill := None;
              Chart.stepped := None;
              Chart.barPercentage := None;
              Chart.categoryPercentage := None;
              Chart.hoverRadius := None |}] |}
  | GraphType.radar =>
      {| Chart.labels := Some (labels s);
         Chart.datasets := [
           {| Chart.label := Some "Values";
              Chart.data := Chart.Values (points s);
              Chart.backgroundColor := Chart.One "rgba(0, 255, 255, 0.2)";
              Chart.tension := None;
              Chart.fill := None;
              Chart.stepped := None;
              Chart.barPercentage := None;
              Chart.categoryPercentage := None;
              Chart.hoverRadius := None |}] |}
  end.

(** The points of the datasets of a chart, in order. *)
Definition chart_points (c : Chart.t) : list Chart.Point :=
  mjoin (map (fun d => match Chart.data d with
                       | Chart.Points p => p
                       | Chart.Values _ => []
                       end) (Chart.datasets c)).

(** ** The sampling loop as a transition system *)

Section Loop.

Variable evaluate : string -> float -> EvalResult.
Variables (expr : string) (xMax step : float).

(** A state of the loop: the loop variable and the three arrays. *)
Definition LoopState : Set := float * Series.

(** One iteration: the test [x <= xMax] holds, the body runs, [x += step]. *)
Inductive loop_step : LoopState -> LoopState -> Prop :=
| loop_iter x s :
    PrimFloat.leb x xMax = true ->
    loop_step (x, s) (PrimFloat.add x step, loop_body evaluate expr x s).

(** The loop leaves in a state whose test fails. *)
Definition loop_exit (st : LoopState) : Prop :=
  PrimFloat.leb st.1 xMax = false.

(** The values the loop variable takes: [x], [x + step], [(x + step) + step],
    ... *)
Fixpoint x_at (k : nat) (x : float) : float :=
  match k with
  | O => x
  | S k' => x_at k' (PrimFloat.add x step)
  end.

(** The first [n] of them. *)
Fixpoint xs_from (n : nat) (x : float) : list float :=
  match n with
  | O => []
  | S n' => x :: xs_from n' (PrimFloat.add x step)
  end.

(** The value kept for [x]: the result of the evaluation when it returns a
    number that is neither NaN nor infinite. *)
Definition kept (x : float) : option float :=
  match evaluate expr x with
  | Returned y => if negb (Num.isNaN y) && Num.isFinite y then Some y else None
  | Threw => None
  end.

End Loop.

(** ** Vocabulary of the properties *)

(** Two series, one after the other. *)
Definition series_app (a b : Series) : Series :=
  {| points := points a ++ points b;
     labels := labels a ++ labels b;
     scatterData := scatterData a ++ scatterData b |}.

Section Samples.

Variable evaluate : string -> float -> EvalResult.
Variable expr : string.

(** The samples of the values [xs] of the loop variable: one for each value
    at which the evaluation is kept, in the order of [xs]. *)
Definition samples_of (xs : list float) : Series :=
  {| points := omap (kept evaluate expr) xs;
     labels := omap (fun x => (fun _ => NumStr.toFixed x 1) <$> kept evaluate expr x) xs;
     scatterData := omap (fun x => XY.mk x <$> kept evaluate expr x) xs |}.

(** A sample is skipped when the evaluation throws, or returns NaN or an
    infinity. *)
Definition skipped (x : float) : Prop :=
  match evaluate expr x with
  | Threw => True
  | Returned y => Num.isNaN y = true \/ Num.isFinite y = false
  end.

End Samples.

(** The controls are those of an equation-based graph. *)
Definition equation_based (controls : GraphControls) : Prop :=
  type controls ∈ equationTypes.

(** The expression the sampler evaluates: [expr] in the source. *)
Definition expr_of (controls : GraphControls) : string :=
  Str.trim (Str.toLowerCase (equation controls)).

(** The literal parser in the words of its contract: the text is split on
    commas; each token is trimmed and parsed as a number; a token that does
    not parse is dropped, the others are kept in their order. *)
Fixpoint keep_parsed (tokens : list string) : list float :=
  match tokens with
  | [] => []
  | token :: rest =>
      let v := NumStr.parseFloat (Str.trim token) in
      if Num.isNaN v then keep_parsed rest else v :: keep_parsed rest
  end.

Definition parse (text : string) : list float :=
  keep_parsed (Str.split "," text).

(** The series a list of literal values is wrapped into. *)
Definition literal_series (values : list float) : Series :=
  {| points := values;
     labels := imap (fun i _ => "Value " ++ Str.decimal (Z.of_nat i + 1)) values;
     scatterData := imap (fun i v => XY.mk (Num.of_nat i) v) values |}.

(** What the builder returns once the loop has run over the values [xs]. *)
Definition sampled (evaluate : string -> float -> EvalResult)
    (expr : string) (xs : list float) : Series * ErrorState :=
  let s := samples_of evaluate expr xs in
  match points s with
  | [] => (defaultResult, Some "No valid points generated")
  | _ => (s, None)
  end.

(** A string of decimal digits. *)
Fixpoint all_digits (s : string) : bool :=
  match s with
  | String c r => Str.is_digit c && all_digits r
  | EmptyString => true
  end.

(** At least one digit, a point, one digit. *)
Fixpoint digits_point_digit (s : string) (seen : bool) : bool :=
  match s with
  | String c r =>
      if Str.is_digit c then digits_point_digit r true
      else if Ascii.eqb c "." then
        seen && match r with
                | String d EmptyString => Str.is_digit d
                | _ => false
                end
      else false
  | EmptyString => false
  end.

(** An optional minus sign, then digits with one decimal. *)
Definition one_decimal (s : string) : bool :=
  match s with
  | String c r =>
      if Ascii.eqb c "-" then digits_point_digit r false
      else digits_point_digit s false
  | EmptyString => false
  end.

(** A number that is a zero, or positive: finite or infinite. *)
Definition nonneg_shape (f : spec_float) : Prop :=
  match f with
  | S754_zero _ => True
  | S754_infinity s | S754_finite s _ _ => s = false
  | S754_nan => False
  end.

(** An evaluator for the examples: it knows [x^2] and, at the points the
    examples sample, [log(x)] (the logarithm of a negative number is not a
    real number, that of zero is minus infinity); it throws on any other
    expression. *)
Module Demo.

Definition log (x : float) : float :=
  if PrimFloat.eqb x 1 then 0%float
  else if PrimFloat.eqb x 0.5 then (-0.6931471805599453)%float
  else if PrimFloat.eqb x 0 then PrimFloat.neg_infinity
  else PrimFloat.nan.

Definition evaluate (expr : string) (x : float) : EvalResult :=
  if String.eqb expr "x^2" then Returned (x * x)%float
  else if String.eqb expr "log(x)" then Returned (log x)
  else if String.eqb expr "x" then Returned x
  else Threw.

Definition controls (ty : GraphType) (eq dat : string) (lo hi st : float)
    : GraphControls :=
  {| type := ty; equation := eq; data := dat;
     xMin := lo; xMax := hi; step := st |}.

Definition parabola := controls GraphType.line "x^2" "" (-2) 2 1.
Definition logarithm := controls GraphType.scatter "log(x)" "" (-1) 1 0.5.
Definition bubbles := controls GraphType.bubble "x^2" "" (-4) 4 1.
Definition bars := controls GraphType.bar "" "10, 20, 30, 40, 50" (-10) 10 0.1.
Definition no_bars := controls GraphType.bar "" "" (-10) 10 0.1.
Definition bogus := controls GraphType.line "1/0*bogus(" "" (-10) 10 0.1.
Definition stuck := controls GraphType.line "x" "" (-10) 10 0.
Definition far := controls GraphType.line "x" "" 1e16 2e16 1.
Definition blank := controls GraphType.scatter "   " "" (-10) 10 0.1.

End Demo.

(** ** The rest of the [Graph] component *)

(** The chart component [renderChart] picks. *)
Inductive Component : Set :=
| Line | Bar | Scatter | Pie | Doughnut | Radar.

(** The [type] of the x scale. *)
Inductive ScaleType : Set :=
| linear | category.

(** The options handed to the chart.  [baseOptions] is the same for every
    graph type and left out; [scales] holds the type of the x scale when the
    options have scales. *)
Record Options : Set := {
  scales : option ScaleType
}.

(** The callback of the third [useMemo]. *)
Definition chartOptions (controls : GraphControls) : Options :=
  if bool_decide (type controls ∈ [GraphType.pie; GraphType.doughnut;
                                    GraphType.radar; GraphType.polar])
  then {| scales := None |}
  else {| scales :=
            Some (if bool_decide (type controls ∈ [GraphType.scatter; GraphType.bubble])
                  then linear else category) |}.

(** The [label] callback of the tooltip, as a function of
    [context.dataset.label] and [context.parsed.y], each of which may be
    undefined. *)
Definition tooltipLabel (datasetLabel : option string) (parsedY : option float)
    : string :=
  let label := Str.or_else (default "" datasetLabel) "" in
  let label := if Str.truthy label then label ++ ": " else label in
  match parsedY with
  | Some y => label ++ NumStr.toFixed y 2
  | None => label
  end.

(** What [renderChart] returns: the error panel with its message, or a chart
    component with its [data] and [options]. *)
Inductive Rendered : Set :=
| ErrorPanel (message : string)
| ChartElement (component : Component) (data : Chart.t) (options : Options).

Definition component_of (ty : GraphType) : Component :=
  match ty with
  | GraphType.line | GraphType.area | GraphType.step => Line
  | GraphType.bar | GraphType.histogram => Bar
  | GraphType.scatter | GraphType.bubble => Scatter
  | GraphType.pie => Pie
  | GraphType.doughnut => Doughnut
  | GraphType.radar | GraphType.polar => Radar
  end.

Definition renderChart (controls : GraphControls) (error : ErrorState)
    (chartData : Chart.t) (chartOptions : Options) : Rendered :=
  match error with
  | Some message =>
      if Str.truthy message then ErrorPanel message
      else ChartElement (component_of (type controls)) chartData chartOptions
  | None => ChartElement (component_of (type controls)) chartData chartOptions
  end.

(** What [Graph] renders once the error state the builder set is in effect
    (a state set while rendering makes React render again, and the memoised
    series is kept). *)
Definition Graph (evaluate : string -> float -> EvalResult) (fuel : nat)
    (controls : GraphControls) : Run Rendered :=
  s ← build evaluate fuel controls;
  ((fun error =>
      Some (renderChart controls error (chartData controls s)
              (chartOptions controls), error)) : Run Rendered).

(** ** The [GraphControls] component *)

Definition graphTypes : list GraphType :=
  [GraphType.line; GraphType.bar; GraphType.scatter; GraphType.pie;
   GraphType.doughnut; GraphType.radar; GraphType.area; GraphType.histogram;
   GraphType.bubble; GraphType.step; GraphType.polar].

Definition equationBasedTypes : list GraphType :=
  [GraphType.line; GraphType.area; GraphType.scatter; GraphType.bubble;
   GraphType.step].

Definition commonEquations : list string :=
  ["sin(x)"; "cos(x)"; "tan(x)"; "x^2"; "x^3"; "log(x)"; "exp(x)"; "1/x";
   "sqrt(x)"; "abs(x)"; "floor(x)"; "ceil(x)"].

Definition sampleData : list string :=
  ["10, 20, 30, 40, 50"; "15, 25, 10, 35, 20"; "100, 200, 150, 300, 250";
   "5, 15, 10, 20, 25"].

Definition isEquationBased (controls : GraphControls) : bool :=
  bool_decide (type controls ∈ equationBasedTypes).

(** [keyof GraphControls], and the values a field takes: [handleChange] is
    modelled on the calls whose value has the type of the field (a number
    field also takes the text of its input). *)
Module Field.
Inductive t : Set :=
| type | equation | data | xMin | xMax | step.

#[global] Instance eq_dec : EqDecision t.
Proof. solve_decision. Defined.

Definition value (field : t) : Set :=
  match field with
  | type => GraphType
  | equation | data => string
  | xMin | xMax | step => (string + float)%type
  end.
End Field.

(** [{ ...controls, [field]: value }] for the three number fields. *)
Definition with_number (controls : GraphControls) (field : Field.t)
    (n : float) : GraphControls :=
  match field with
  | Field.xMin =>
      {| type := type controls; equation := equation controls;
         data := data controls; xMin := n; xMax := xMax controls;
         step := step controls |}
  | Field.xMax =>
      {| type := type controls; equation := equation controls;
         data := data controls; xMin := xMin controls; xMax := n;
         step := step controls |}
  | Field.step =>
      {| type := type controls; equation := equation controls;
         data := data controls; xMin := xMin controls; xMax := xMax controls;
         step := n |}
  | _ => controls
  end.

(** What a call of [handleChange] does: it returns without calling
    [onChange], or it calls [onChange] with new controls. *)
Inductive Outcome : Set :=
| Ignored
| Changed (controls : GraphControls).

(** The branch of [handleChange] for a number field. *)
Definition change_number (controls : GraphControls) (field : Field.t)
    (value : string + float) : Outcome :=
  match value with
  | inl text =>
      let numValue := NumStr.parseFloat text in
      if Num.isNaN numValue then Ignored
      else Changed (with_number controls field numValue)
  | inr n => Changed (with_number controls field n)
  end.

Definition handleChange (controls : GraphControls) (field : Field.t)
    : Field.value field -> Outcome :=
  match field with
  | Field.type => fun value =>
      Changed {| type := value; equation := equation controls;
                 data := data controls; xMin := xMin controls;
                 xMax := xMax controls; step := step controls |}
  | Field.equation => fun value =>
      Changed {| type := type controls; equation := value;
                 data := data controls; xMin := xMin controls;
                 xMax := xMax controls; step := step controls |}
  | Field.data => fun value =>
      Changed {| type := type controls; equation := equation controls;
                 data := value; xMin := xMin controls;
                 xMax := xMax controls; step := step controls |}
  | Field.xMin => change_number controls Field.xMin
  | Field.xMax => change_number controls Field.xMax
  | Field.step => change_number controls Field.step
  end.


(** The calls of [handleChange] the form makes: the select passes one of
    [graphTypes]; the text inputs and the buttons under them pass a text; the
    number inputs pass the text typed in them. *)
Inductive offers (controls : GraphControls)
    : forall field, Field.value field -> Prop :=
| offers_type k :
    k ∈ graphTypes -> offers controls Field.type k
| offers_equation text :
    isEquationBased controls = true -> offers controls Field.equation text
| offers_data text :
    isEquationBased controls = false -> offers controls Field.data text
| offers_xMin text :
    isEquationBased controls = true -> offers controls Field.xMin (inl text)
| offers_xMax text :
    isEquationBased controls = true -> offers controls Field.xMax (inl text)
| offers_step text :
    isEquationBased controls = true -> offers controls Field.step (inl text).

(** ** [App] *)

(** The initial state of [controls]. *)
Definition initial : GraphControls :=
  {| type := GraphType.line; equation := "sin(x)";
     data := "10, 20, 30, 40, 50";
     xMin := -10; xMax := 10; step := 0.1 |}.

(** One change of the state of [App]: the form calls [handleChange], which
    calls [onChange], which is [setControls]. *)
Definition App_step (controls controls' : GraphControls) : Prop :=
  exists field value,
    offers controls field value
    /\ handleChange controls field value = Changed controls'.

(** Two controls hold the same value in a field. *)
Definition agree (field : Field.t) (c c' : GraphControls) : Prop :=
  match field with
  | Field.type => type c = type c'
  | Field.equation => equation c = equation c'
  | Field.data => data c = data c'
  | Field.xMin => xMin c = xMin c'
  | Field.xMax => xMax c = xMax c'
  | Field.step => step c = step c'
  end.

(** No number field holds NaN. *)
Definition numbers (controls : GraphControls) : Prop :=
  Num.isNaN (xMin controls) = false
  /\ Num.isNaN (xMax controls) = false
  /\ Num.isNaN (step controls) = false.

(** The value a string of decimal digits denotes. *)
Fixpoint digits_value (s : string) : Z :=
  match s with
  | String c r => (Str.code c - 48) * 10 ^ Z.of_nat (String.length r) + digits_value r
  | EmptyString => 0
  end.


(** Exactly [f] decimal digits. *)
Fixpoint exactly_digits (f : nat) (s : string) : bool :=
  match f, s with
  | O, EmptyString => true
  | S f', String c r => Str.is_digit c && exactly_digits f' r
  | _, _ => false
  end.

(** At least one digit, a point, [f] digits. *)
Fixpoint digits_point (s : string) (seen : bool) (f : nat) : bool :=
  match s with
  | String c r =>
      if Str.is_digit c then digits_point r true f
      else if Ascii.eqb c "." then seen && exactly_digits f r
      else false
  | EmptyString => false
  end.

(** An optional minus sign, then digits with [f] decimals. *)
Definition fixed_decimals (f : nat) (s : string) : bool :=
  match s with
  | String c r =>
      if Ascii.eqb c "-" then digits_point r false f
      else digits_point s false f
  | EmptyString => false
  end.


(** Controls and series for the examples. *)
Module Inputs.

Definition squares : Series :=
  samples_of Demo.evaluate "x^2" [-2; -1; 0; 1; 2]%float.



Definition reversed : GraphControls :=
  Demo.controls GraphType.line "x" "" 2 1 1.

Definition unbounded : GraphControls :=
  Demo.controls GraphType.line "x" "" 0 PrimFloat.infinity 0.5.

Definition tenths : GraphControls :=
  Demo.controls GraphType.line "x" "" 0 1 0.1.

Definition huge : GraphControls :=
  Demo.controls GraphType.line "x" "" 1e21 1e21 1e21.

End Inputs.

(** Two runs on the expression [random()], which mathjs evaluates to a number
    drawn from [0, 1) at each call: [drawn call] is the number drawn at the
    call number [call] of the run. *)
Module Runs.


Definition answers (drawn : nat -> float) (call : nat) (expr : string)
    (x : float) : EvalResult :=
  if String.eqb expr "random()" then Returned (drawn call)
  else Demo.evaluate expr x.


Definition other : nat -> string -> float -> EvalResult :=
  answers (fun call => match call with O => 0.625 | 1%nat => 0.75 | _ => 0.375 end)%float.



End Runs.

(** * Properties *)

(** ** The built-ins on examples *)

Example of_ratio_half : Num.of_ratio false 5 10 = 0.5%float.
Proof. vm_compute. reflexivity. Qed.

Example of_ratio_tenth : Num.of_ratio false 1 10 = 0.1%float.
Proof. vm_compute. reflexivity. Qed.

Example of_ratio_overflow : Num.of_ratio false (10 ^ 400) 1 = PrimFloat.infinity.
Proof. vm_compute. reflexivity. Qed.

Example of_ratio_underflow : Num.of_ratio true 1 (10 ^ 400) = PrimFloat.neg_zero.
Proof. vm_compute. reflexivity. Qed.

Example of_ratio_ties_even :
  Num.of_ratio false 9007199254740993 1 = 9007199254740992%float.
Proof. vm_compute. reflexivity. Qed.

Example of_ratio_sticky :
  Num.of_ratio false 90071992547409931 10 = 9007199254740994%float.
Proof. vm_compute. reflexivity. Qed.

Example parseFloat_examples :
  map NumStr.parseFloat
    ["5"; " 7.5"; "a"; ""; "5abc"; "-.5e1x"; "."; "-"; "+Infinityy";
     "infinity"; "1e"; "5.e3"; ".e3"; "-0"; "1e400"; "0x10"; "12.50.3"]
  = [5; 7.5; nan; nan; 5; -5; nan; nan; infinity;
     nan; 1; 5000; nan; -0; infinity; 0; 12.5]%float.
Proof. vm_compute. reflexivity. Qed.

Example toFixed_examples :
  map (fun x => NumStr.toFixed x 1)
    [0.05; 0.25; 0.35; -0.04; -0; 1.45; -2; 9.95; 1e21; 1e23; 2.5e21;
     123456789012345680000]%float
  = ["0.1"; "0.3"; "0.3"; "-0.0"; "0.0"; "1.4"; "-2.0"; "9.9"; "1e+21";
     "1e+23"; "2.5e+21"; "123456789012345683968.0"].
Proof. vm_compute. reflexivity. Qed.

Example split_examples :
  (Str.split "," "a, 5, , 7.5", Str.split "," "", Str.split "," "a,")
  = (["a"; " 5"; " "; " 7.5"], [""], ["a"; ""]).
Proof. reflexivity. Qed.

Example trim_lower_example :
  Str.trim (Str.toLowerCase "  SIN(X) + Log ") = "sin(x) + log".
Proof. reflexivity. Qed.

(** ** Facts about numbers, from the specification of the primitive floats *)

Section NumFacts.

Lemma SFcompare_refl_finite s m e :
  SFcompare (S754_finite s m e) (S754_finite s m e) = Some Eq.
Proof.
  simpl. rewrite Z.compare_refl, Pos.compare_cont_refl.
  by destruct s.
Qed.

Lemma is_nan_Prim2SF x :
  PrimFloat.is_nan x = true <-> Prim2SF x = S754_nan.
Proof.
  unfold PrimFloat.is_nan. rewrite FloatAxioms.eqb_spec. unfold SFeqb.
  destruct (Prim2SF x) as [s|s| |s m e] eqn:E.
  - simpl. split; discriminate.
  - destruct s; simpl; split; discriminate.
  - simpl. done.
  - rewrite SFcompare_refl_finite. simpl. split; discriminate.
Qed.

Lemma is_nan_false_Prim2SF x :
  PrimFloat.is_nan x = false <-> Prim2SF x <> S754_nan.
Proof.
  pose proof (is_nan_Prim2SF x) as [H1 H2].
  destruct (PrimFloat.is_nan x); split; intros; try done.
  - by specialize (H1 eq_refl).
  - destruct (Prim2SF x); try done. by specialize (H2 eq_refl).
Qed.

Lemma SFcompare_antisym x y :
  SFcompare y x = CompOpp <$> SFcompare x y.
Proof.
  destruct x as [s1|s1| |s1 m1 e1], y as [s2|s2| |s2 m2 e2];
    try destruct s1; try destruct s2; simpl; try reflexivity.
  - rewrite (Z.compare_antisym e1 e2).
    destruct (e1 ?= e2); simpl; try reflexivity.
    pose proof (Pos.compare_cont_antisym m1 m2 Eq) as H. simpl in H.
    rewrite <- H. by rewrite CompOpp_involutive.
  - rewrite (Z.compare_antisym e1 e2).
    destruct (e1 ?= e2); simpl; try reflexivity.
    pose proof (Pos.compare_cont_antisym m1 m2 Eq) as H. simpl in H.
    by rewrite <- H.
Qed.

(** [x < y] gives [x <= y]. *)
Lemma ltb_leb x y : PrimFloat.ltb x y = true -> PrimFloat.leb x y = true.
Proof.
  rewrite FloatAxioms.ltb_spec, FloatAxioms.leb_spec. unfold SFltb, SFleb.
  by destruct (SFcompare (Prim2SF x) (Prim2SF y)) as [[]|].
Qed.

(** Two numbers of which neither is below the other, and neither is NaN,
    compare equal. *)
Lemma not_ltb_leb x y :
  PrimFloat.is_nan x = false -> PrimFloat.is_nan y = false ->
  PrimFloat.ltb y x = false -> PrimFloat.leb x y = true.
Proof.
  rewrite !is_nan_false_Prim2SF, FloatAxioms.ltb_spec, FloatAxioms.leb_spec.
  unfold SFltb, SFleb.
  rewrite (SFcompare_antisym (Prim2SF x) (Prim2SF y)).
  intros Hx Hy.
  destruct (SFcompare (Prim2SF x) (Prim2SF y)) as [[]|] eqn:E; simpl; try done.
  destruct (Prim2SF x) as [[]|[]| |[]], (Prim2SF y) as [[]|[]| |[]]; done.
Qed.

(** Adding a zero keeps a number below a bound it was below. *)
Lemma leb_add_zero x z m :
  PrimFloat.eqb z 0 = true ->
  PrimFloat.leb x m = true -> PrimFloat.leb (x + z) m = true.
Proof.
  rewrite FloatAxioms.eqb_spec, !FloatAxioms.leb_spec, FloatAxioms.add_spec.
  unfold SF64add, SFeqb, SFleb.
  change (Prim2SF 0) with (S754_zero false).
  destruct (Prim2SF z) as [sz|[]| |[]]; simpl; try discriminate.
  intros _.
  destruct (Prim2SF x) as [sx|sx| |sx mx ex]; simpl; try done.
  by destruct sx, sz.
Qed.

End NumFacts.

(** ** Rounding keeps the sign *)

Section Rounding.

Lemma shr_1_nonneg mrs : 0 <= shr_m mrs -> 0 <= shr_m (shr_1 mrs).
Proof. destruct mrs as [[|[p|p|]|p] r s]; simpl; lia. Qed.

Lemma iter_shr_1_nonneg p : forall mrs,
  0 <= shr_m mrs -> 0 <= shr_m (SpecFloat.iter_pos shr_1 p mrs).
Proof.
  induction p as [p IH|p IH|]; intros mrs H; simpl.
  - by apply IH, IH, shr_1_nonneg.
  - by apply IH, IH.
  - by apply shr_1_nonneg.
Qed.

Lemma shr_fexp_nonneg m e l :
  0 <= m -> 0 <= shr_m (shr_fexp prec emax m e l).1.
Proof.
  intros H. unfold shr_fexp, shr.
  assert (0 <= shr_m (shr_record_of_loc m l)) by (by destruct l as [|[]]).
  destruct (fexp prec emax (Zdigits2 m + e) - e); simpl; try done.
  by apply iter_shr_1_nonneg.
Qed.

Lemma round_nearest_even_nonneg m l : 0 <= m -> 0 <= round_nearest_even m l.
Proof.
  intros H. destruct l as [|[]]; simpl; try lia.
  destruct (Z.even m); lia.
Qed.

Lemma binary_round_aux_nonneg mx ex lx :
  0 <= mx -> nonneg_shape (binary_round_aux prec emax false mx ex lx).
Proof.
  intros H. unfold binary_round_aux.
  pose proof (shr_fexp_nonneg mx ex lx H) as H1.
  destruct (shr_fexp prec emax mx ex lx) as [mrs' e'].
  simpl in H1.
  pose proof (shr_fexp_nonneg _ e' loc_Exact
                (round_nearest_even_nonneg _ (loc_of_shr_record mrs') H1)) as H2.
  destruct (shr_fexp prec emax _ e' loc_Exact) as [mrs'' e''].
  simpl in H2.
  destruct (shr_m mrs'') as [|m|m]; simpl; try done.
  by destruct (e'' <=? emax - prec).
Qed.

Lemma nonneg_shape_leb f :
  nonneg_shape f -> SFleb (S754_zero false) f = true.
Proof. destruct f as [s|s| |s m e]; simpl; try done; by intros ->. Qed.

(** [|y| * 2] is not negative, when [y] is a number. *)
Lemma abs_twice_nonneg y :
  PrimFloat.is_nan y = false -> nonneg_shape (Prim2SF (PrimFloat.abs y * 2)).
Proof.
  rewrite is_nan_false_Prim2SF, FloatAxioms.mul_spec, FloatAxioms.abs_spec.
  change (Prim2SF 2) with (S754_finite false 4503599627370496 (-51)).
  intros Hy. destruct (Prim2SF y) as [s|s| |s m e]; simpl; try done.
  apply binary_round_aux_nonneg. lia.
Qed.

End Rounding.

(** The radius of a bubble lies between 0 and 20. *)
Lemma bubble_radius_bounds (y : float) :
  PrimFloat.is_nan y = false ->
  let r := Num.min (Num.abs y * 2)%float 20%float in
  PrimFloat.leb 0 r = true /\ PrimFloat.leb r 20 = true.
Proof.
  intros Hy. pose proof (abs_twice_nonneg y Hy) as Ha.
  unfold Num.abs. set (a := (PrimFloat.abs y * 2)%float) in *.
  assert (PrimFloat.is_nan a = false) as Hn.
  { apply is_nan_false_Prim2SF. by destruct (Prim2SF a). }
  assert (PrimFloat.leb 0 a = true) as H0.
  { rewrite FloatAxioms.leb_spec. by apply nonneg_shape_leb. }
  simpl. unfold Num.min. rewrite Hn. simpl.
  change (PrimFloat.is_nan 20) with false. simpl.
  destruct (PrimFloat.ltb a 20) eqn:E1; [by split; [|apply ltb_leb]|].
  destruct (PrimFloat.ltb 20 a) eqn:E2; [done|].
  destruct (PrimFloat.get_sign a); [|done].
  split; [done|]. by apply not_ltb_leb.
Qed.

(** ** The shape of [toFixed(1)] *)

Lemma digit_chr r : 0 <= r < 10 -> Str.is_digit (Str.chr (48 + r)) = true.
Proof.
  intros H.
  assert (r = 0 \/ r = 1 \/ r = 2 \/ r = 3 \/ r = 4 \/ r = 5 \/ r = 6
          \/ r = 7 \/ r = 8 \/ r = 9) as Hr by lia.
  repeat destruct Hr as [-> | Hr]; try reflexivity. by subst.
Qed.

Lemma digits_go_all fuel : forall n acc,
  all_digits acc = true -> all_digits (Str.digits_go fuel n acc) = true.
Proof.
  induction fuel as [|fuel IH]; intros n acc Hacc; simpl; [done|].
  assert (all_digits (String (Str.chr (48 + n mod 10)) acc) = true) as H.
  { simpl. rewrite digit_chr, Hacc; [done|]. apply Z.mod_pos_bound. lia. }
  destruct (n / 10 =? 0); [done|]. by apply IH.
Qed.

Lemma digits_go_length fuel : forall n acc,
  (String.length acc <= String.length (Str.digits_go fuel n acc))%nat.
Proof.
  induction fuel as [|fuel IH]; intros n acc; simpl; [lia|].
  destruct (n / 10 =? 0); simpl; [lia|].
  etrans; [|apply IH]. simpl. lia.
Qed.

Lemma decimal_all n : all_digits (Str.decimal n) = true.
Proof. by apply digits_go_all. Qed.

Lemma decimal_length n : (1 <= String.length (Str.decimal n))%nat.
Proof.
  unfold Str.decimal. simpl.
  destruct (n / 10 =? 0); simpl; [lia|].
  etrans; [|apply digits_go_length]. simpl. lia.
Qed.

Lemma fixed_shape ds : forall seen,
  all_digits ds = true -> (2 <= String.length ds)%nat ->
  digits_point_digit
    (String.substring 0 (String.length ds - 1) ds ++ "."
       ++ String.substring (String.length ds - 1) 1 ds) seen = true.
Proof.
  induction ds as [|c r IH]; intros seen Hall Hlen; simpl in *; [lia|].
  apply andb_prop in Hall as [Hc Hr].
  destruct r as [|d r'] ; simpl in *; [lia|].
  rewrite Hc.
  destruct r' as [|d' r'']; simpl in *.
  - apply andb_prop in Hr as [Hd _]. by rewrite Hd.
  - apply (IH true Hr). lia.
Qed.

Lemma digit_not_minus c : Str.is_digit c = true -> Ascii.eqb c "-" = false.
Proof.
  intros H. destruct (Ascii.eqb_spec c "-") as [->|]; [|done].
  by vm_compute in H.
Qed.

Lemma one_decimal_signed sgn ds :
  sgn = "" \/ sgn = "-" ->
  all_digits ds = true -> (2 <= String.length ds)%nat ->
  one_decimal
    (sgn ++ String.substring 0 (String.length ds - 1) ds ++ "."
         ++ String.substring (String.length ds - 1) 1 ds) = true.
Proof.
  intros Hs Hall Hlen.
  pose proof (fixed_shape ds false Hall Hlen) as H.
  destruct Hs as [-> | ->]; simpl; [|done].
  destruct ds as [|c r]; simpl in *; [lia|].
  apply andb_prop in Hall as [Hc _].
  destruct r as [|d r']; simpl in *; [lia|].
  by rewrite (digit_not_minus c Hc).
Qed.

(** The mantissa of a number has at most 53 bits. *)
Lemma digits2_bound p : Z.pos p < 2 ^ Z.pos (digits2_pos p).
Proof.
  induction p as [p IH|p IH|]; simpl digits2_pos;
    rewrite ?Pos2Z.inj_succ, ?Z.pow_succ_r by lia; lia.
Qed.

Lemma bounded_mantissa m e : bounded prec emax m e = true -> Z.pos m < 2 ^ 53.
Proof.
  unfold bounded, canonical_mantissa, fexp.
  intros [H _]%andb_prop. apply Z.eqb_eq in H.
  pose proof (digits2_bound m) as Hm.
  assert (Z.pos (digits2_pos m) <= 53) as Hd by (unfold prec in H; lia).
  eapply Z.lt_le_trans; [exact Hm|].
  apply Z.pow_le_mono_r; lia.
Qed.

Lemma below_1e21 m e :
  bounded prec emax m e = true ->
  SFltb (S754_finite false m e) (S754_finite false 7629394531250000 17) = true ->
  (10 ^ 21 * (NumStr.ratio m e).2 <=? (NumStr.ratio m e).1) = false.
Proof.
  intros Hb%bounded_mantissa Hlt. apply Z.leb_gt. revert Hlt.
  unfold SFltb, SFcompare, NumStr.ratio.
  destruct (Z.compare_spec e 17) as [-> | He | He]; [| |done].
  - intros Hc. simpl.
    assert (Z.pos m < 7629394531250000).
    { by destruct (Pos.compare_cont Eq m 7629394531250000) eqn:E. }
    lia.
  - intros _. destruct (0 <=? e) eqn:E0; simpl.
    + apply Z.leb_le in E0.
      assert (2 ^ e <= 2 ^ 16) by (apply Z.pow_le_mono_r; lia).
      assert (0 < 2 ^ e) by (apply Z.pow_pos_nonneg; lia).
      change (2 ^ 16) with 65536 in *. change (2 ^ 53) with 9007199254740992 in *.
      change (10 ^ 21) with 1000000000000000000000. nia.
    + apply Z.leb_gt in E0.
      assert (0 < 2 ^ (- e)) by (apply Z.pow_pos_nonneg; lia).
      change (2 ^ 53) with 9007199254740992 in *.
      change (10 ^ 21) with 1000000000000000000000. nia.
Qed.

Lemma pad_one ds :
  all_digits ds = true -> (1 <= String.length ds)%nat ->
  all_digits (NumStr.pad 1 ds) = true /\ (2 <= String.length (NumStr.pad 1 ds))%nat.
Proof.
  intros Hall Hlen. unfold NumStr.pad.
  destruct ds as [|c [|d r]]; simpl in *; [lia| |split; [done|lia]].
  split; [done|lia].
Qed.

(** A number of absolute value below [10^21] is printed by [toFixed(1)] with
    one decimal. *)
Lemma toFixed_one_decimal x :
  PrimFloat.ltb (PrimFloat.abs x) 1e21 = true ->
  one_decimal (NumStr.toFixed x 1) = true.
Proof.
  rewrite FloatAxioms.ltb_spec, FloatAxioms.abs_spec.
  change (Prim2SF 1e21) with (S754_finite false 7629394531250000 17).
  pose proof (Prim2SF_valid x) as Hv. unfold NumStr.toFixed.
  destruct (Prim2SF x) as [s|s| |s m e]; cbn [SFabs].
  - intros _. vm_compute. reflexivity.
  - intros Hlt. discriminate Hlt.
  - intros Hlt. discriminate Hlt.
  - intros Hlt. cbn [valid_binary] in Hv.
    pose proof (below_1e21 m e Hv Hlt) as Hsmall.
    destruct (NumStr.ratio m e) as [num den]. cbn [fst snd] in Hsmall.
    rewrite Hsmall.
    destruct (pad_one (Str.decimal (NumStr.scaled num den 1)))
      as [Hall Hlen]; [apply decimal_all|apply decimal_length|].
    unfold NumStr.point.
    apply one_decimal_signed; [destruct s; auto|exact Hall|exact Hlen].
Qed.

(** ** The sampling loop *)

Section LoopFacts.

Variable evaluate : string -> float -> EvalResult.
Variables (expr : string) (xMax step : float).

#[local] Abbreviation body := (loop_body evaluate expr).
#[local] Abbreviation samples := (samples_of evaluate expr).
#[local] Abbreviation x_at := (x_at step).
#[local] Abbreviation xs_from := (xs_from step).

Lemma series_app_nil_r s : series_app s defaultResult = s.
Proof. destruct s. unfold series_app. simpl. by rewrite !app_nil_r. Qed.

Lemma series_app_nil_l s : series_app defaultResult s = s.
Proof. by destruct s. Qed.

Lemma series_app_assoc a b c :
  series_app (series_app a b) c = series_app a (series_app b c).
Proof. unfold series_app. simpl. by rewrite <- !app_assoc. Qed.

Lemma samples_cons x xs :
  samples (x :: xs) = series_app (samples [x]) (samples xs).
Proof.
  unfold samples_of, series_app. simpl.
  by destruct (kept evaluate expr x).
Qed.

(** The body adds the sample of [x], if it is kept, and nothing else. *)
Lemma loop_body_samples x s : body x s = series_app s (samples [x]).
Proof.
  unfold loop_body, samples_of, kept. simpl.
  destruct (evaluate expr x) as [|y]; simpl.
  - by rewrite series_app_nil_r.
  - destruct (negb (Num.isNaN y) && Num.isFinite y); simpl; [done|].
    by rewrite series_app_nil_r.
Qed.

(** A loop that returns has run over [n] values of the loop variable, all
    at most [xMax], and left at the first value that is not; it returns the
    arrays it started from followed by the samples of these values. *)
Lemma for_loop_Some fuel : forall x s s',
  for_loop evaluate fuel expr xMax step x s = Some s' ->
  exists n, (n < fuel)%nat
    /\ (forall k, (k < n)%nat -> PrimFloat.leb (x_at k x) xMax = true)
    /\ PrimFloat.leb (x_at n x) xMax = false
    /\ s' = series_app s (samples (xs_from n x)).
Proof.
  induction fuel as [|fuel IH]; intros x s s'; simpl; [done|].
  destruct (PrimFloat.leb x xMax) eqn:E.
  - intros H. apply IH in H as (n & Hn & Hk & Hex & ->).
    exists (S n). split; [lia|]. split; [|split; [done|]].
    + intros [|k] Hlt; simpl; [done|]. apply Hk. lia.
    + simpl. rewrite loop_body_samples, series_app_assoc.
      by rewrite <- samples_cons.
  - intros [= <-]. exists O. split; [lia|]. split; [intros; lia|].
    split; [done|]. simpl. by rewrite series_app_nil_r.
Qed.

(** Conversely, with more fuel than values to run over, the loop returns. *)
Lemma for_loop_enough n : forall fuel x s,
  (n < fuel)%nat ->
  (forall k, (k < n)%nat -> PrimFloat.leb (x_at k x) xMax = true) ->
  PrimFloat.leb (x_at n x) xMax = false ->
  for_loop evaluate fuel expr xMax step x s
  = Some (series_app s (samples (xs_from n x))).
Proof.
  induction n as [|n IH]; intros [|fuel] x s Hf Hk Hex; try lia; simpl.
  - simpl in Hex. rewrite Hex. by rewrite series_app_nil_r.
  - pose proof (Hk O ltac:(lia)) as H0. simpl in H0. rewrite H0, IH.
    + by rewrite loop_body_samples, series_app_assoc, <- samples_cons.
    + lia.
    + intros k Hlt. apply (Hk (S k)). lia.
    + done.
Qed.

(** The number of values run over is determined by the loop variable. *)
Lemma exit_index_unique x n m :
  (forall k, (k < n)%nat -> PrimFloat.leb (x_at k x) xMax = true) ->
  PrimFloat.leb (x_at n x) xMax = false ->
  (forall k, (k < m)%nat -> PrimFloat.leb (x_at k x) xMax = true) ->
  PrimFloat.leb (x_at m x) xMax = false ->
  n = m.
Proof.
  intros Hn En Hm Em.
  destruct (lt_eq_lt_dec n m) as [[Hlt| ->]|Hlt]; [|done|].
  - rewrite (Hm n Hlt) in En. done.
  - rewrite (Hn m Hlt) in Em. done.
Qed.

(** The result of the loop does not depend on the fuel. *)
Lemma for_loop_fuel f1 f2 x s s1 s2 :
  for_loop evaluate f1 expr xMax step x s = Some s1 ->
  for_loop evaluate f2 expr xMax step x s = Some s2 ->
  s1 = s2.
Proof.
  intros (n & _ & Hn & En & ->)%for_loop_Some (m & _ & Hm & Em & ->)%for_loop_Some.
  by rewrite (exit_index_unique x n m).
Qed.

(** The loop and the transition system agree: the loop returns [s'] exactly
    when some run of the system, shorter than the fuel, leaves with [s']. *)
Lemma for_loop_steps fuel : forall x s s',
  for_loop evaluate fuel expr xMax step x s = Some s' <->
  exists n x', (n < fuel)%nat
    /\ nsteps (loop_step evaluate expr xMax step) n (x, s) (x', s')
    /\ loop_exit xMax (x', s').
Proof.
  induction fuel as [|fuel IH]; intros x s s'; simpl.
  - split; [done|]. intros (n & _ & Hlt & _). lia.
  - destruct (PrimFloat.leb x xMax) eqn:E.
    + rewrite IH. split.
      * intros (n & x' & Hlt & Hst & Hex). exists (S n), x'.
        split; [lia|]. split; [|done].
        eapply nsteps_l; [|done]. by constructor.
      * intros (n & x' & Hlt & Hst & Hex).
        inversion Hst as [|n' ? y ? Hs Hrest]; subst.
        { unfold loop_exit in Hex. simpl in Hex. congruence. }
        inversion Hs; subst. exists n', x'. split; [lia|]. done.
    + split.
      * intros [= <-]. exists O, x. split; [lia|]. split; [constructor|done].
      * intros (n & x' & Hlt & Hst & Hex).
        inversion Hst as [|n' ? y ? Hs Hrest]; subst; [done|].
        inversion Hs; subst. congruence.
Qed.

(** The transition system is deterministic. *)
Lemma loop_step_deterministic st st1 st2 :
  loop_step evaluate expr xMax step st st1 ->
  loop_step evaluate expr xMax step st st2 -> st1 = st2.
Proof. intros H1 H2. inversion H1; subst. by inversion H2. Qed.

(** With a zero step, a loop that is entered is never left: every state the
    system reaches passes the test. *)
Lemma zero_step_never_exits x s st :
  PrimFloat.eqb step 0 = true ->
  PrimFloat.leb x xMax = true ->
  rtc (loop_step evaluate expr xMax step) (x, s) st ->
  ~ loop_exit xMax st.
Proof.
  intros Hz Hx Hrtc. unfold loop_exit.
  cut (PrimFloat.leb st.1 xMax = true); [congruence|].
  remember (x, s) as st0 eqn:E. revert x s Hx E.
  induction Hrtc as [st|st st' st'' Hstep Hrest IH]; intros x s Hx ->; [done|].
  inversion Hstep; subst. eapply IH; [|done].
  by apply leb_add_zero.
Qed.

(** A step the loop variable absorbs ([x + step] rounds to [x]) does the
    same. *)
Lemma absorbed_step_diverges fuel : forall x s,
  PrimFloat.add x step = x ->
  PrimFloat.leb x xMax = true ->
  for_loop evaluate fuel expr xMax step x s = None.
Proof.
  induction fuel as [|fuel IH]; intros x s Hfix Hx; simpl; [done|].
  rewrite Hx, Hfix. by apply IH.
Qed.

Lemma zero_step_diverges fuel : forall x s,
  PrimFloat.eqb step 0 = true ->
  PrimFloat.leb x xMax = true ->
  for_loop evaluate fuel expr xMax step x s = None.
Proof.
  induction fuel as [|fuel IH]; intros x s Hz Hx; simpl; [done|].
  rewrite Hx. apply IH; [done|]. by apply leb_add_zero.
Qed.

End LoopFacts.

(** ** The literal parser *)

Lemma parseData_keep_parsed tokens :
  List.filter (fun val => negb (Num.isNaN val))
    (List.map (fun val => NumStr.parseFloat (Str.trim val)) tokens)
  = keep_parsed tokens.
Proof.
  induction tokens as [|token rest IH]; simpl; [done|].
  destruct (Num.isNaN (NumStr.parseFloat (Str.trim token))); simpl;
    by rewrite IH.
Qed.

Lemma or_else_empty s : Str.or_else s "" = s.
Proof. by destruct s. Qed.

(** ** The series builder *)

Ltac run_simpl :=
  unfold mbind, run_bind, mret, run_ret, setError, lift; simpl.

Section BuildFacts.

Variable evaluate : string -> float -> EvalResult.

Lemma samples_lengths expr xs :
  length (labels (samples_of evaluate expr xs))
  = length (points (samples_of evaluate expr xs))
  /\ length (scatterData (samples_of evaluate expr xs))
    = length (points (samples_of evaluate expr xs)).
Proof.
  induction xs as [|x xs [IH1 IH2]]; simpl in *; [done|].
  destruct (kept evaluate expr x); simpl;
    (split; [try f_equal; exact IH1 | try f_equal; exact IH2]).
Qed.

Lemma literal_lengths values :
  length (labels (literal_series values)) = length values
  /\ length (scatterData (literal_series values)) = length values.
Proof. simpl. by rewrite !length_imap. Qed.

(** The builder on a literal graph: it returns, whatever the fuel and the
    state. *)
Lemma build_literal fuel controls e :
  ~ equation_based controls ->
  build evaluate fuel controls e
  = Some (match parseData (data controls) with
          | [] => (defaultResult, Some "Please enter valid comma-separated numbers")
          | _ => (literal_series (parseData (data controls)), None)
          end).
Proof.
  intros H. unfold build, equation_based in *.
  rewrite bool_decide_eq_false_2 by done. simpl.
  rewrite or_else_empty.
  by destruct (parseData (data controls)).
Qed.

(** The builder on an equation-based graph. *)
Lemma build_equation fuel controls e :
  equation_based controls ->
  build evaluate fuel controls e
  = if Str.truthy (expr_of controls) then
      match evaluate (expr_of controls) 1%float with
      | Threw => Some (defaultResult, Some "Invalid equation format")
      | Returned _ =>
          match for_loop evaluate fuel (expr_of controls) (xMax controls)
                  (step controls) (xMin controls) defaultResult with
          | Some s =>
              Some (match points s with
                    | [] => (defaultResult, Some "No valid points generated")
                    | _ => (s, None)
                    end)
          | None => None
          end
      end
    else Some (defaultResult, Some "Please enter an equation").
Proof.
  intros H. unfold build, equation_based, expr_of in *.
  rewrite bool_decide_eq_true_2 by done. simpl.
  destruct (Str.truthy _); simpl; [|done].
  destruct (evaluate _ 1%float); [done|].
  run_simpl.
  destruct (for_loop _ _ _ _ _ _ _) as [s|]; [|done].
  by destruct (points s).
Qed.

(** With more fuel than values to run over, the builder returns the samples
    of these values. *)
Lemma build_sampled fuel controls e n y1 :
  equation_based controls ->
  Str.truthy (expr_of controls) = true ->
  evaluate (expr_of controls) 1%float = Returned y1 ->
  (forall k, (k < n)%nat ->
     PrimFloat.leb (x_at (step controls) k (xMin controls)) (xMax controls) = true) ->
  PrimFloat.leb (x_at (step controls) n (xMin controls)) (xMax controls) = false ->
  (n < fuel)%nat ->
  build evaluate fuel controls e
  = Some (sampled evaluate (expr_of controls)
            (xs_from (step controls) n (xMin controls))).
Proof.
  intros Hty Hex Hev Hk Hn Hf.
  rewrite build_equation, Hex, Hev by done.
  rewrite (for_loop_enough _ _ _ _ n) by done.
  by rewrite series_app_nil_l.
Qed.

(** A run of the builder that returns on an equation-based graph with a
    non-empty expression that evaluates at 1 has run over some values. *)
Lemma build_returns_sampled fuel controls e r y1 :
  equation_based controls ->
  Str.truthy (expr_of controls) = true ->
  evaluate (expr_of controls) 1%float = Returned y1 ->
  build evaluate fuel controls e = Some r ->
  exists n, (n < fuel)%nat
    /\ (forall k, (k < n)%nat ->
          PrimFloat.leb (x_at (step controls) k (xMin controls)) (xMax controls) = true)
    /\ PrimFloat.leb (x_at (step controls) n (xMin controls)) (xMax controls) = false
    /\ r = sampled evaluate (expr_of controls)
             (xs_from (step controls) n (xMin controls)).
Proof.
  intros Hty Hex Hev. rewrite build_equation, Hex, Hev by done.
  destruct (for_loop _ _ _ _ _ _ _) as [s|] eqn:E; [|done].
  apply for_loop_Some in E as (n & Hn & Hk & Hx & ->).
  rewrite series_app_nil_l. intros [= <-]. by exists n.
Qed.

(** The result of the builder depends neither on the state it starts from
    nor on the fuel. *)
Lemma build_fuel_state f1 f2 controls e1 e2 r1 r2 :
  build evaluate f1 controls e1 = Some r1 ->
  build evaluate f2 controls e2 = Some r2 ->
  r1 = r2.
Proof.
  destruct (decide (equation_based controls)) as [H|H].
  - rewrite !build_equation by done.
    destruct (Str.truthy _); [|congruence].
    destruct (evaluate _ _); [congruence|].
    destruct (for_loop _ f1 _ _ _ _ _) as [s1|] eqn:E1; [|done].
    destruct (for_loop _ f2 _ _ _ _ _) as [s2|] eqn:E2; [|done].
    rewrite (for_loop_fuel _ _ _ _ _ _ _ _ _ _ E1 E2). congruence.
  - rewrite !build_literal by done. congruence.
Qed.

End BuildFacts.

(** ** What the samples of a run are *)

Section SampleFacts.

Variable evaluate : string -> float -> EvalResult.
Variable expr : string.

Lemma kept_Some x y :
  kept evaluate expr x = Some y <->
  evaluate expr x = Returned y /\ Num.isNaN y = false /\ Num.isFinite y = true.
Proof.
  unfold kept. destruct (evaluate expr x) as [|y'].
  - split; [done|]. by intros [? _].
  - destruct (Num.isNaN y') eqn:E1, (Num.isFinite y') eqn:E2; simpl;
      split; try done; try (intros [[= ->] [? ?]]; congruence).
    by intros [= ->].
Qed.

Lemma kept_None x : kept evaluate expr x = None <-> skipped evaluate expr x.
Proof.
  unfold kept, skipped. destruct (evaluate expr x) as [|y]; [done|].
  destruct (Num.isNaN y), (Num.isFinite y); simpl; split; intros H;
    try done; try (by left); try (by right); by destruct H.
Qed.

(** The sample at an index: its [x] is one of the values run over, its [y]
    the evaluation there, its label [x.toFixed(1)]. *)
Lemma samples_lookup xs : forall i x y,
  scatterData (samples_of evaluate expr xs) !! i = Some (XY.mk x y) ->
  x ∈ xs /\ kept evaluate expr x = Some y
  /\ points (samples_of evaluate expr xs) !! i = Some y
  /\ labels (samples_of evaluate expr xs) !! i = Some (NumStr.toFixed x 1).
Proof.
  induction xs as [|x0 xs IH]; intros i x y; simpl; [done|].
  destruct (kept evaluate expr x0) as [y0|] eqn:E; simpl.
  - destruct i as [|i]; simpl.
    + intros [= <- <-]. split; [by left|done].
    + intros H. destruct (IH i x y H) as (? & ? & ? & ?).
      split; [by right|done].
  - intros H. destruct (IH i x y H) as (? & ? & ? & ?).
    split; [by right|done].
Qed.

(** A value has a sample exactly when it is run over and kept. *)
Lemma samples_elem xs x y :
  XY.mk x y ∈ scatterData (samples_of evaluate expr xs) <->
  x ∈ xs /\ kept evaluate expr x = Some y.
Proof.
  simpl. rewrite list_elem_of_omap. split.
  - intros (x' & Hin & Hf). destruct (kept evaluate expr x') eqn:E; [|done].
    simpl in Hf. by injection Hf as <- <-.
  - intros [Hin Hk]. exists x. split; [done|]. by rewrite Hk.
Qed.

Lemma samples_points_elem xs y :
  y ∈ points (samples_of evaluate expr xs) <->
  exists x, x ∈ xs /\ kept evaluate expr x = Some y.
Proof. simpl. by rewrite list_elem_of_omap. Qed.

(** Every sample holds a number that is neither NaN nor infinite. *)
Lemma samples_finite xs p :
  p ∈ scatterData (samples_of evaluate expr xs) ->
  Num.isNaN (XY.y p) = false /\ Num.isFinite (XY.y p) = true.
Proof.
  destruct p as [x y]. rewrite samples_elem, kept_Some. simpl. tauto.
Qed.

End SampleFacts.

Lemma xs_from_x_at step n : forall x,
  xs_from step n x = map (fun k => x_at step k x) (seq 0 n).
Proof.
  induction n as [|n IH]; intros x; simpl; [done|].
  f_equal. rewrite IH. by rewrite <- seq_shift, map_map.
Qed.

Lemma xs_from_elem step n x x' :
  x' ∈ xs_from step n x <-> exists k, (k < n)%nat /\ x' = x_at step k x.
Proof.
  rewrite xs_from_x_at, list_elem_of_fmap. split.
  - intros (k & -> & Hin). exists k. split; [|done].
    apply list_elem_of_In, in_seq in Hin. lia.
  - intros (k & Hlt & ->). exists k. split; [done|].
    apply list_elem_of_In, in_seq. lia.
Qed.

(** * The claims *)

(** C3: the literal parser splits the text on commas, trims each token and
    returns the numbers the tokens parse to, in their order; a token that
    does not parse, an empty one included, is dropped.  [parseData] of the
    source equals [parse], written from the contract, on every text, and
    [parse("a, 5, , 7.5") = [5, 7.5]],
    [parse("10, 20, 30, 40, 50") = [10, 20, 30, 40, 50]]. *)
Theorem parseData_parse :
  (forall text, parseData text = parse text)
  /\ parseData "a, 5, , 7.5" = [5; 7.5]%float
  /\ parseData "10, 20, 30, 40, 50" = [10; 20; 30; 40; 50]%float.
Proof.
  split; [|split].
  - intros text. apply parseData_keep_parsed.
  - vm_compute. reflexivity.
  - vm_compute. reflexivity.
Qed.

(** C2: a run of the builder that returns leaves exactly one of a non-empty
    series and an error message: either the series is not empty and the error
    state is cleared, or the series is empty and the state holds a message
    that is shown.  In both cases the three arrays have one length. *)
Theorem build_series_xor_error evaluate fuel controls e s err :
  build evaluate fuel controls e = Some (s, err) ->
  ((points s <> [] /\ err = None) \/ (points s = [] /\ shown err = true))
  /\ length (labels s) = length (points s)
  /\ length (scatterData s) = length (points s).
Proof.
  destruct (decide (equation_based controls)) as [H|H].
  - rewrite build_equation by done.
    destruct (Str.truthy _); [|intros [= <- <-]; split; [by right|done]].
    destruct (evaluate _ _); [intros [= <- <-]; split; [by right|done]|].
    destruct (for_loop _ _ _ _ _ _ _) as [s'|] eqn:E; [|done].
    apply for_loop_Some in E as (n & _ & _ & _ & ->).
    rewrite series_app_nil_l.
    destruct (points _) as [|v vs] eqn:Ep.
    + intros [= <- <-]. split; [by right|done].
    + intros [= <- <-]. split; [left; by rewrite Ep|].
      apply samples_lengths.
  - rewrite build_literal by done.
    destruct (parseData _) as [|v vs] eqn:Ep.
    + intros [= <- <-]. split; [by right|done].
    + intros [= <- <-]. split; [by left|].
      apply literal_lengths.
Qed.

Lemma build_series_xor_error_witness :
  ((points (samples_of Demo.evaluate "x^2" [-2; -1; 0; 1; 2]%float) <> []
    /\ @None string = None)
   \/ (points (samples_of Demo.evaluate "x^2" [-2; -1; 0; 1; 2]%float) = []
       /\ shown None = true))
  /\ length (labels (samples_of Demo.evaluate "x^2" [-2; -1; 0; 1; 2]%float))
     = length (points (samples_of Demo.evaluate "x^2" [-2; -1; 0; 1; 2]%float))
  /\ length (scatterData (samples_of Demo.evaluate "x^2" [-2; -1; 0; 1; 2]%float))
     = length (points (samples_of Demo.evaluate "x^2" [-2; -1; 0; 1; 2]%float)).
Proof.
  apply (build_series_xor_error Demo.evaluate 6 Demo.parabola (Some "stale")).
  vm_compute. reflexivity.
Defined.

(** C5, amended: on a literal graph (a type outside line, area, scatter,
    bubble and step) whose data text holds no number that parses, the builder
    returns the empty series and sets the message
    "Please enter valid comma-separated numbers"; otherwise it clears the
    error and the series holds, at each index [i] of the parsed values, the
    value [v] as point, ["Value " + (i + 1)] as label and [{ x: i, y: v }]. *)
Theorem build_literal_family evaluate fuel controls e :
  ~ equation_based controls ->
  (parseData (data controls) = [] ->
     build evaluate fuel controls e
     = Some (defaultResult, Some "Please enter valid comma-separated numbers"))
  /\ (parseData (data controls) <> [] ->
      exists s, build evaluate fuel controls e = Some (s, None)
        /\ length (points s) = length (parseData (data controls))
        /\ forall i v, parseData (data controls) !! i = Some v ->
             points s !! i = Some v
             /\ labels s !! i = Some ("Value " ++ Str.decimal (Z.of_nat i + 1))
             /\ scatterData s !! i = Some (XY.mk (Num.of_nat i) v)).
Proof.
  intros H. rewrite build_literal by done. split.
  - by intros ->.
  - intros Hne. exists (literal_series (parseData (data controls))).
    destruct (parseData (data controls)) as [|v0 vs] eqn:E; [done|].
    split; [done|]. split; [done|].
    intros i v Hi. split; [done|]. unfold literal_series.
    cbn [labels scatterData]. rewrite !list_lookup_imap, Hi. done.
Qed.

Lemma build_literal_family_witness :
  (parseData (data Demo.bars) = [] ->
     build Demo.evaluate 0 Demo.bars None
     = Some (defaultResult, Some "Please enter valid comma-separated numbers"))
  /\ (parseData (data Demo.bars) <> [] ->
      exists s, build Demo.evaluate 0 Demo.bars None = Some (s, None)
        /\ length (points s) = length (parseData (data Demo.bars))
        /\ forall i v, parseData (data Demo.bars) !! i = Some v ->
             points s !! i = Some v
             /\ labels s !! i = Some ("Value " ++ Str.decimal (Z.of_nat i + 1))
             /\ scatterData s !! i = Some (XY.mk (Num.of_nat i) v)).
Proof.
  apply build_literal_family.
  apply (bool_decide_unpack _). vm_compute. exact I.
Defined.

(** C5 as stated fails: on the literal graph of type bar with empty data the
    builder sets "Please enter valid comma-separated numbers", which is not
    the message "enter valid comma-separated numbers". *)
Lemma build_empty_data_message :
  parseData "" = []
  /\ build Demo.evaluate 0 Demo.no_bars None
     = Some (defaultResult, Some "Please enter valid comma-separated numbers")
  /\ build Demo.evaluate 0 Demo.no_bars None
     <> Some (defaultResult, Some "enter valid comma-separated numbers").
Proof.
  split; [|split]; [vm_compute; reflexivity..|].
  vm_compute. discriminate.
Qed.

(** C4, amended: on an equation-based graph whose trimmed, lowercased
    expression is not empty, when the evaluation at [x = 1] throws, the
    builder returns the empty series and sets the message
    "Invalid equation format", whatever the fuel: the loop is not entered. *)
Theorem build_invalid_equation evaluate fuel controls e :
  equation_based controls ->
  Str.truthy (Str.trim (Str.toLowerCase (equation controls))) = true ->
  evaluate (Str.trim (Str.toLowerCase (equation controls))) 1%float = Threw ->
  build evaluate fuel controls e
  = Some (defaultResult, Some "Invalid equation format").
Proof.
  intros Hty Hex Hev. rewrite build_equation by done.
  unfold expr_of. by rewrite Hex, Hev.
Qed.

Lemma build_invalid_equation_witness :
  build Demo.evaluate 0 Demo.bogus None
  = Some (defaultResult, Some "Invalid equation format").
Proof.
  apply build_invalid_equation.
  - apply (bool_decide_unpack _). vm_compute. exact I.
  - vm_compute. reflexivity.
  - vm_compute. reflexivity.
Defined.

(** C4 as stated fails: on the line graph of the expression [1/0*bogus(],
    whose evaluation at 1 throws, the builder sets "Invalid equation format",
    which is not the message "invalid equation format". *)
Lemma build_invalid_equation_message :
  Demo.evaluate (expr_of Demo.bogus) 1%float
  = Threw
  /\ build Demo.evaluate 0 Demo.bogus None
     = Some (defaultResult, Some "Invalid equation format")
  /\ build Demo.evaluate 0 Demo.bogus None
     <> Some (defaultResult, Some "invalid equation format").
Proof.
  split; [|split]; [vm_compute; reflexivity..|].
  vm_compute. discriminate.
Qed.

(** C6: once the expression is validated, an evaluation that throws or
    returns NaN or an infinity at some [x] drops the sample of that [x] only.
    Over the values [xs] the loop runs over, [x] has a sample exactly when
    its own evaluation returns a finite number, whatever happens at the other
    values; the builder returns these samples without an error as soon as
    one value is kept, and "No valid points generated" when none is. *)
Theorem sampling_skips_single_points evaluate fuel controls e n y1 :
  equation_based controls ->
  Str.truthy (expr_of controls) = true ->
  evaluate (expr_of controls) 1%float = Returned y1 ->
  (forall k, (k < n)%nat ->
     PrimFloat.leb (x_at (step controls) k (xMin controls)) (xMax controls) = true) ->
  PrimFloat.leb (x_at (step controls) n (xMin controls)) (xMax controls) = false ->
  (n < fuel)%nat ->
  let xs := xs_from (step controls) n (xMin controls) in
  let s := samples_of evaluate (expr_of controls) xs in
  (forall x y,
     XY.mk x y ∈ scatterData s <->
     x ∈ xs /\ evaluate (expr_of controls) x = Returned y
     /\ Num.isNaN y = false /\ Num.isFinite y = true)
  /\ (forall x y, x ∈ xs -> skipped evaluate (expr_of controls) x ->
        XY.mk x y ∉ scatterData s)
  /\ ((exists x, x ∈ xs /\ ~ skipped evaluate (expr_of controls) x) ->
      build evaluate fuel controls e = Some (s, None))
  /\ ((forall x, x ∈ xs -> skipped evaluate (expr_of controls) x) ->
      build evaluate fuel controls e
      = Some (defaultResult, Some "No valid points generated")).
Proof.
  intros Hty Hex Hev Hk Hn Hf xs s.
  pose proof (build_sampled evaluate fuel controls e n y1 Hty Hex Hev Hk Hn Hf)
    as Hb.
  fold xs in Hb. unfold sampled in Hb. fold s in Hb.
  split; [|split; [|split]].
  - intros x y. unfold s. by rewrite samples_elem, kept_Some.
  - intros x y Hin Hs. unfold s. rewrite samples_elem.
    apply kept_None in Hs. intros [_ Hkept]. congruence.
  - intros (x & Hin & Hns). rewrite Hb.
    destruct (kept evaluate (expr_of controls) x) as [y|] eqn:E;
      [|by apply kept_None in E].
    assert (y ∈ points s) as Hy by (apply samples_points_elem; eauto).
    destruct (points s); [by apply elem_of_nil in Hy|done].
  - intros Hall. rewrite Hb.
    destruct (points s) as [|y ys] eqn:E; [done|].
    assert (y ∈ points s) as Hy by (rewrite E; by left).
    apply samples_points_elem in Hy as (x & Hin & Hkept).
    apply Hall, kept_None in Hin. congruence.
Qed.

Lemma sampling_skips_single_points_witness :
  let xs := xs_from 0.5 5 (-1) in
  let s := samples_of Demo.evaluate "log(x)" xs in
  (forall x y,
     XY.mk x y ∈ scatterData s <->
     x ∈ xs /\ Demo.evaluate "log(x)" x = Returned y
     /\ Num.isNaN y = false /\ Num.isFinite y = true)
  /\ (forall x y, x ∈ xs -> skipped Demo.evaluate "log(x)" x ->
        XY.mk x y ∉ scatterData s)
  /\ ((exists x, x ∈ xs /\ ~ skipped Demo.evaluate "log(x)" x) ->
      build Demo.evaluate 6 Demo.logarithm None = Some (s, None))
  /\ ((forall x, x ∈ xs -> skipped Demo.evaluate "log(x)" x) ->
      build Demo.evaluate 6 Demo.logarithm None
      = Some (defaultResult, Some "No valid points generated")).
Proof.
  apply (sampling_skips_single_points Demo.evaluate 6 Demo.logarithm None 5 0%float).
  - apply (bool_decide_unpack _). vm_compute. exact I.
  - vm_compute. reflexivity.
  - vm_compute. reflexivity.
  - intros k Hk.
    do 5 (destruct k as [|k]; [vm_compute; reflexivity|]). lia.
  - vm_compute. reflexivity.
  - lia.
Defined.

(** The example of C6: with an evaluator for which [log(x)] is not a finite
    number at -1, -0.5 and 0 and is one at 0.5 and 1, the scatter graph of
    [log(x)] from -1 to 1 by 0.5 has the two samples at 0.5 and 1, and no
    error. *)
Lemma log_example evaluate fuel e a b :
  skipped evaluate "log(x)" (-1)%float ->
  skipped evaluate "log(x)" (-0.5)%float ->
  skipped evaluate "log(x)" 0%float ->
  evaluate "log(x)" 0.5%float = Returned a ->
  evaluate "log(x)" 1%float = Returned b ->
  Num.isNaN a = false -> Num.isFinite a = true ->
  Num.isNaN b = false -> Num.isFinite b = true ->
  (6 <= fuel)%nat ->
  build evaluate fuel Demo.logarithm e
  = Some ({| points := [a; b];
             labels := ["0.5"; "1.0"];
             scatterData := [XY.mk 0.5 a; XY.mk 1 b] |}, None).
Proof.
  intros H1 H2 H3 Ha Hb Hna Hfa Hnb Hfb Hfuel.
  rewrite (build_sampled evaluate fuel Demo.logarithm e 5 b).
  - change (xs_from (step Demo.logarithm) 5 (xMin Demo.logarithm))
      with [-1; -0.5; 0; 0.5; 1]%float.
    change (expr_of Demo.logarithm) with "log(x)".
    apply kept_None in H1, H2, H3.
    assert (kept evaluate "log(x)" 0.5 = Some a) as Ka by (by apply kept_Some).
    assert (kept evaluate "log(x)" 1 = Some b) as Kb by (by apply kept_Some).
    unfold sampled, samples_of. simpl. rewrite H1, H2, H3, Ka, Kb. simpl.
    do 2 f_equal.
  - apply (bool_decide_unpack _). vm_compute. exact I.
  - vm_compute. reflexivity.
  - exact Hb.
  - intros k Hk.
    do 5 (destruct k as [|k]; [vm_compute; reflexivity|]). lia.
  - vm_compute. reflexivity.
  - lia.
Qed.

(** C7, amended: once the expression is validated, and the loop variable,
    started at [xMin] and advanced by [x += step], leaves the domain after
    [n] values, the builder returns with any fuel above [n]; the values
    sampled are [xMin] with [step] added [0], [1], ..., [n - 1] times, each at
    most [xMax]; every retained sample has for [y] the evaluation at its [x]
    and for label [x.toFixed(1)], which is [x] in one decimal as long as
    [|x| < 10^21]; and every value whose evaluation is a finite number is
    retained. *)
Theorem sampling_domain_and_labels evaluate fuel controls e n y1 :
  equation_based controls ->
  Str.truthy (expr_of controls) = true ->
  evaluate (expr_of controls) 1%float = Returned y1 ->
  (forall k, (k < n)%nat ->
     PrimFloat.leb (x_at (step controls) k (xMin controls)) (xMax controls) = true) ->
  PrimFloat.leb (x_at (step controls) n (xMin controls)) (xMax controls) = false ->
  (n < fuel)%nat ->
  let xs := map (fun k => x_at (step controls) k (xMin controls)) (seq 0 n) in
  let s := samples_of evaluate (expr_of controls) xs in
  build evaluate fuel controls e
  = Some (match points s with
          | [] => (defaultResult, Some "No valid points generated")
          | _ => (s, None)
          end)
  /\ (forall x, x ∈ xs -> PrimFloat.leb x (xMax controls) = true)
  /\ (forall i x y,
        scatterData s !! i = Some (XY.mk x y) ->
        x ∈ xs
        /\ evaluate (expr_of controls) x = Returned y
        /\ points s !! i = Some y
        /\ labels s !! i = Some (NumStr.toFixed x 1)
        /\ (PrimFloat.ltb (PrimFloat.abs x) 1e21 = true ->
            one_decimal (NumStr.toFixed x 1) = true))
  /\ (forall x y,
        x ∈ xs -> evaluate (expr_of controls) x = Returned y ->
        Num.isNaN y = false -> Num.isFinite y = true ->
        XY.mk x y ∈ scatterData s).
Proof.
  intros Hty Hex Hev Hk Hn Hf xs s.
  pose proof (build_sampled evaluate fuel controls e n y1 Hty Hex Hev Hk Hn Hf)
    as Hb.
  rewrite xs_from_x_at in Hb. fold xs in Hb.
  split; [exact Hb|]. split; [|split].
  - intros x Hin. unfold xs in Hin. rewrite <- xs_from_x_at in Hin.
    apply xs_from_elem in Hin as (k & Hlt & ->). by apply Hk.
  - intros i x y Hi. apply samples_lookup in Hi as (Hin & Hkept & Hp & Hl).
    apply kept_Some in Hkept as (Hr & _ & _).
    repeat (split; [done|]). apply toFixed_one_decimal.
  - intros x y Hin Hr Hnan Hfin. apply samples_elem. split; [done|].
    by apply kept_Some.
Qed.

Lemma sampling_domain_and_labels_witness :
  let xs := map (fun k => x_at 1 k (-2)) (seq 0 5) in
  let s := samples_of Demo.evaluate "x^2" xs in
  build Demo.evaluate 6 Demo.parabola None
  = Some (match points s with
          | [] => (defaultResult, Some "No valid points generated")
          | _ => (s, None)
          end)
  /\ (forall x, x ∈ xs -> PrimFloat.leb x 2 = true)
  /\ (forall i x y,
        scatterData s !! i = Some (XY.mk x y) ->
        x ∈ xs
        /\ Demo.evaluate "x^2" x = Returned y
        /\ points s !! i = Some y
        /\ labels s !! i = Some (NumStr.toFixed x 1)
        /\ (PrimFloat.ltb (PrimFloat.abs x) 1e21 = true ->
            one_decimal (NumStr.toFixed x 1) = true))
  /\ (forall x y,
        x ∈ xs -> Demo.evaluate "x^2" x = Returned y ->
        Num.isNaN y = false -> Num.isFinite y = true ->
        XY.mk x y ∈ scatterData s).
Proof.
  apply (sampling_domain_and_labels Demo.evaluate 6 Demo.parabola None 5 1%float).
  - apply (bool_decide_unpack _). vm_compute. exact I.
  - vm_compute. reflexivity.
  - vm_compute. reflexivity.
  - intros k Hk.
    do 5 (destruct k as [|k]; [vm_compute; reflexivity|]). lia.
  - vm_compute. reflexivity.
  - lia.
Defined.

(** C7 as stated fails, in three ways.  With [xMin = 1e16], [xMax = 2e16]
    and [step = 1], a step above zero, the loop variable stays at [xMin]: no
    sample is taken at [xMin + 2], which is below [xMax], and the builder
    never returns.  With [xMin = 0], [xMax = 1] and [step = 0.1] the ninth
    sample is at 0.7999999999999999, the value the repeated [x += step]
    gives, and not at [xMin + 8 * step].  With [xMin = xMax = step = 1e21]
    the label of the sample is "1e+21", which is not [x] to one decimal
    digit. *)
Lemma sampling_not_as_claimed :
  (PrimFloat.ltb 0 (step Demo.far) = true
   /\ PrimFloat.leb (PrimFloat.add (xMin Demo.far) 2) (xMax Demo.far) = true
   /\ (forall k, x_at (step Demo.far) k (xMin Demo.far) = xMin Demo.far)
   /\ forall fuel e, build Demo.evaluate fuel Demo.far e = None)
  /\ (exists s x y,
        build Demo.evaluate 12 Inputs.tenths None = Some (s, None)
        /\ PrimFloat.ltb 0 (step Inputs.tenths) = true
        /\ scatterData s !! 8%nat = Some (XY.mk x y)
        /\ x = 0.7999999999999999%float
        /\ PrimFloat.eqb x (xMin Inputs.tenths + 8 * step Inputs.tenths) = false)
  /\ (exists s,
        build Demo.evaluate 2 Inputs.huge None = Some (s, None)
        /\ PrimFloat.ltb 0 (step Inputs.huge) = true
        /\ labels s = ["1e+21"]
        /\ one_decimal "1e+21" = false).
Proof.
  split; [|split].
  - split; [vm_compute; reflexivity|]. split; [vm_compute; reflexivity|].
    split.
    + intros k. induction k as [|k IH]; [reflexivity|]. simpl.
      replace (PrimFloat.add (xMin Demo.far) (step Demo.far)) with (xMin Demo.far)
        by (vm_compute; reflexivity).
      exact IH.
    + intros fuel e. rewrite build_equation.
      * replace (Str.truthy (expr_of Demo.far)) with true by (vm_compute; reflexivity).
        replace (Demo.evaluate (expr_of Demo.far) 1) with (Returned 1)
          by (vm_compute; reflexivity).
        rewrite absorbed_step_diverges; [done| |]; vm_compute; reflexivity.
      * apply (bool_decide_unpack _). vm_compute. exact I.
  - eexists _, _, _. split; [vm_compute; reflexivity|].
    repeat split; vm_compute; reflexivity.
  - eexists. split; [vm_compute; reflexivity|].
    repeat split; vm_compute; reflexivity.
Qed.

(** The example of C7: with an evaluator that squares, the line graph of
    [x^2] from -2 to 2 by 1 has samples at -2, -1, 0, 1, 2 with the values
    4, 1, 0, 1, 4, and no error. *)
Lemma square_example evaluate fuel e :
  (forall x, evaluate "x^2" x = Returned (x * x)%float) ->
  (6 <= fuel)%nat ->
  build evaluate fuel Demo.parabola e
  = Some ({| points := [4; 1; 0; 1; 4]%float;
             labels := ["-2.0"; "-1.0"; "0.0"; "1.0"; "2.0"];
             scatterData := [XY.mk (-2) 4; XY.mk (-1) 1; XY.mk 0 0;
                             XY.mk 1 1; XY.mk 2 4]%float |}, None).
Proof.
  intros Hev Hfuel.
  rewrite (build_sampled evaluate fuel Demo.parabola e 5 1%float).
  - change (xs_from (step Demo.parabola) 5 (xMin Demo.parabola))
      with [-2; -1; 0; 1; 2]%float.
    change (expr_of Demo.parabola) with "x^2".
    unfold sampled, samples_of, kept. simpl. rewrite !Hev.
    vm_compute. reflexivity.
  - apply (bool_decide_unpack _). vm_compute. exact I.
  - vm_compute. reflexivity.
  - rewrite Hev. vm_compute. reflexivity.
  - intros k Hk.
    do 5 (destruct k as [|k]; [vm_compute; reflexivity|]). lia.
  - vm_compute. reflexivity.
  - lia.
Qed.

(** The series the builder returns holds numbers only. *)
Lemma build_samples_numbers evaluate fuel controls e s err p :
  equation_based controls ->
  build evaluate fuel controls e = Some (s, err) ->
  p ∈ scatterData s ->
  Num.isNaN (XY.y p) = false /\ Num.isFinite (XY.y p) = true.
Proof.
  intros Hty. rewrite build_equation by done.
  destruct (Str.truthy _); [|intros [= <- <-] Hin; by apply elem_of_nil in Hin].
  destruct (evaluate _ _); [intros [= <- <-] Hin; by apply elem_of_nil in Hin|].
  destruct (for_loop _ _ _ _ _ _ _) as [s'|] eqn:E; [|done].
  apply for_loop_Some in E as (n & _ & _ & _ & ->).
  rewrite series_app_nil_l.
  destruct (points _); intros [= <- <-] Hin.
  - by apply elem_of_nil in Hin.
  - by apply samples_finite in Hin.
Qed.

Lemma chart_points_xy controls s :
  type controls = GraphType.scatter \/ type controls = GraphType.bubble ->
  chart_points (chartData controls s)
  = map (fun point =>
           Chart.mkPoint (XY.x point) (XY.y point) (radius (type controls) point))
      (scatterData s).
Proof.
  unfold chart_points, chartData.
  intros [-> | ->]; simpl; by rewrite app_nil_r.
Qed.

(** C8: for the type bubble, the adapter gives each point of the series the
    builder returned the radius [min(|y| * 2, 20)], which lies between 0 and
    20; it is 20 for [y = -15] and 6 for [y = 3]. *)
Theorem bubble_radius evaluate fuel controls e s err :
  type controls = GraphType.bubble ->
  build evaluate fuel controls e = Some (s, err) ->
  chart_points (chartData controls s)
  = map (fun point =>
           Chart.mkPoint (XY.x point) (XY.y point)
             (Num.min (Num.abs (XY.y point) * 2)%float 20%float))
      (scatterData s)
  /\ (forall p, p ∈ chart_points (chartData controls s) ->
        PrimFloat.leb 0 (Chart.r p) = true
        /\ PrimFloat.leb (Chart.r p) 20 = true)
  /\ (forall x, radius GraphType.bubble (XY.mk x (-15)) = 20%float)
  /\ (forall x, radius GraphType.bubble (XY.mk x 3) = 6%float).
Proof.
  intros Hty Hb.
  assert (equation_based controls) as Heq.
  { unfold equation_based. rewrite Hty. apply (bool_decide_unpack _).
    vm_compute. exact I. }
  assert (chart_points (chartData controls s)
          = map (fun point =>
                   Chart.mkPoint (XY.x point) (XY.y point)
                     (Num.min (Num.abs (XY.y point) * 2)%float 20%float))
              (scatterData s)) as Hpts.
  { rewrite chart_points_xy by (by right). by rewrite Hty. }
  split; [exact Hpts|]. split; [|split].
  - intros p. rewrite Hpts, list_elem_of_fmap. intros (q & -> & Hin). simpl.
    apply bubble_radius_bounds.
    by destruct (build_samples_numbers _ _ _ _ _ _ q Heq Hb Hin).
  - intros x. vm_compute. reflexivity.
  - intros x. vm_compute. reflexivity.
Qed.

Lemma bubble_radius_witness :
  chart_points (chartData Demo.bubbles
                  (samples_of Demo.evaluate "x^2" [-4; -3; -2; -1; 0; 1; 2; 3; 4]%float))
  = [Chart.mkPoint (-4) 16 20; Chart.mkPoint (-3) 9 18; Chart.mkPoint (-2) 4 8;
     Chart.mkPoint (-1) 1 2; Chart.mkPoint 0 0 0; Chart.mkPoint 1 1 2;
     Chart.mkPoint 2 4 8; Chart.mkPoint 3 9 18; Chart.mkPoint 4 16 20]%float
  /\ (forall p,
        p ∈ chart_points (chartData Demo.bubbles
              (samples_of Demo.evaluate "x^2" [-4; -3; -2; -1; 0; 1; 2; 3; 4]%float)) ->
        PrimFloat.leb 0 (Chart.r p) = true
        /\ PrimFloat.leb (Chart.r p) 20 = true)
  /\ (forall x, radius GraphType.bubble (XY.mk x (-15)) = 20%float)
  /\ (forall x, radius GraphType.bubble (XY.mk x 3) = 6%float).
Proof.
  destruct (bubble_radius Demo.evaluate 10 Demo.bubbles None
              (samples_of Demo.evaluate "x^2" [-4; -3; -2; -1; 0; 1; 2; 3; 4]%float)
              None) as (H1 & H2 & H3 & H4).
  - reflexivity.
  - vm_compute. reflexivity.
  - split; [|by split]. rewrite H1. vm_compute. reflexivity.
Defined.

(** C10: for the type scatter, the adapter gives every point the radius 4,
    whatever its [y]; only the type bubble uses [min(|y| * 2, 20)]; the other
    types have no point with a radius. *)
Theorem scatter_radius_fixed ty eq dat lo hi st s :
  chart_points
    (chartData {| type := ty; equation := eq; data := dat;
                  xMin := lo; xMax := hi; step := st |} s)
  = match ty with
    | GraphType.scatter =>
        map (fun point => Chart.mkPoint (XY.x point) (XY.y point) 4%float)
          (scatterData s)
    | GraphType.bubble =>
        map (fun point =>
               Chart.mkPoint (XY.x point) (XY.y point)
                 (Num.min (Num.abs (XY.y point) * 2)%float 20%float))
          (scatterData s)
    | _ => []
    end.
Proof.
  destruct ty; try reflexivity;
    unfold chart_points, chartData; simpl; by rewrite app_nil_r.
Qed.

(** ** Two runs of the builder *)

Section CallFacts.

Context (evaluate : nat -> string -> float -> EvalResult).




End CallFacts.


(** When every call answers as one function of the expression and [x], the
    builder call by call is the builder on that function. *)
Lemma for_loop_calls_function evaluate expr xMax step fuel : forall call x s,
  for_loop_calls (fun _ => evaluate) fuel call expr xMax step x s
  = for_loop evaluate fuel expr xMax step x s.
Proof.
  induction fuel as [|fuel IH]; intros call x s; simpl; [done|].
  by rewrite IH.
Qed.

Lemma build_calls_function evaluate fuel controls e :
  build_calls (fun _ => evaluate) fuel controls e
  = build evaluate fuel controls e.
Proof.
  unfold build_calls, build.
  destruct (negb _); [done|]. simpl.
  destruct (negb _); [done|].
  destruct (evaluate _ _); [done|].
  unfold mbind, run_bind. by rewrite for_loop_calls_function.
Qed.







(** C1 fails on the code: the sampler has no test of [step].  On an
    equation-based graph whose expression is validated, with [step] zero and
    [xMin <= xMax], the loop is entered and never left: no amount of fuel
    makes the builder return, and no error is set. *)
Theorem zero_step_never_returns evaluate fuel controls e y1 :
  equation_based controls ->
  Str.truthy (expr_of controls) = true ->
  evaluate (expr_of controls) 1%float = Returned y1 ->
  PrimFloat.eqb (step controls) 0 = true ->
  PrimFloat.leb (xMin controls) (xMax controls) = true ->
  build evaluate fuel controls e = None.
Proof.
  intros Hty Hex Hev Hz Hle. rewrite build_equation, Hex, Hev by done.
  by rewrite zero_step_diverges.
Qed.

Lemma zero_step_never_returns_witness :
  build Demo.evaluate 1000 Demo.stuck None = None.
Proof.
  apply (zero_step_never_returns Demo.evaluate 1000 Demo.stuck None 1%float).
  - apply (bool_decide_unpack _). vm_compute. exact I.
  - vm_compute. reflexivity.
  - vm_compute. reflexivity.
  - vm_compute. reflexivity.
  - vm_compute. reflexivity.
Defined.

(** ** Further properties of the builder and the adapter *)

(** A positive step does not make the loop end: when [xMin + step] rounds to
    [xMin] and [xMin <= xMax], the builder never returns. *)
Theorem absorbed_step_never_returns evaluate fuel controls e y1 :
  equation_based controls ->
  Str.truthy (expr_of controls) = true ->
  evaluate (expr_of controls) 1%float = Returned y1 ->
  PrimFloat.ltb 0 (step controls) = true ->
  PrimFloat.add (xMin controls) (step controls) = xMin controls ->
  PrimFloat.leb (xMin controls) (xMax controls) = true ->
  build evaluate fuel controls e = None.
Proof.
  intros Hty Hex Hev _ Hfix Hle. rewrite build_equation, Hex, Hev by done.
  by rewrite absorbed_step_diverges.
Qed.

Lemma absorbed_step_never_returns_witness :
  build Demo.evaluate 1000 Demo.far None = None.
Proof.
  apply (absorbed_step_never_returns Demo.evaluate 1000 Demo.far None 1%float).
  - apply (bool_decide_unpack _). vm_compute. exact I.
  - vm_compute. reflexivity.
  - vm_compute. reflexivity.
  - vm_compute. reflexivity.
  - vm_compute. reflexivity.
  - vm_compute. reflexivity.
Defined.

(** On an equation-based graph whose expression is blank, the builder
    returns the empty series and sets "Please enter an equation"; the
    evaluator is not called. *)
Theorem build_missing_equation evaluate fuel controls e :
  equation_based controls ->
  Str.truthy (Str.trim (Str.toLowerCase (equation controls))) = false ->
  build evaluate fuel controls e
  = Some (defaultResult, Some "Please enter an equation").
Proof.
  intros Hty Hex. rewrite build_equation by done.
  unfold expr_of. by rewrite Hex.
Qed.

Lemma build_missing_equation_witness :
  build Demo.evaluate 0 Demo.blank None
  = Some (defaultResult, Some "Please enter an equation").
Proof.
  apply build_missing_equation.
  - apply (bool_decide_unpack _). vm_compute. exact I.
  - vm_compute. reflexivity.
Defined.

(** The adapter is total over the eleven graph types: it makes one dataset;
    for scatter and bubble the dataset holds one point per sample and the
    chart has no labels; for the other nine types the dataset holds the
    values of the series and the chart its labels. *)
Theorem chartData_shape controls s :
  exists d, Chart.datasets (chartData controls s) = [d]
    /\ if bool_decide (type controls ∈ [GraphType.scatter; GraphType.bubble])
       then Chart.labels (chartData controls s) = None
            /\ exists ps, Chart.data d = Chart.Points ps
                 /\ length ps = length (scatterData s)
       else Chart.labels (chartData controls s) = Some (labels s)
            /\ Chart.data d = Chart.Values (points s).
Proof.
  destruct controls as [ty eq dat lo hi st].
  destruct ty; simpl; eexists; (split; [reflexivity|]); simpl;
    try done; (split; [done|]); eexists; (split; [reflexivity|]);
    by rewrite length_map.
Qed.

(** * More of the code *)

(** ** Strings: reversal, trimming and lower case *)



















(** ** Splitting a joined text *)

Lemma split_go_app sep a : forall b cur,
  Str.split_go sep (a ++ String sep b) cur
  = (Str.split_go sep a cur ++ Str.split_go sep b "")%list.
Proof.
  induction a as [|c a IH]; intros b cur; simpl.
  - by rewrite Ascii.eqb_refl.
  - destruct (Ascii.eqb c sep); simpl; by rewrite IH.
Qed.

Lemma split_app sep a b :
  Str.split sep (a ++ String sep b) = (Str.split sep a ++ Str.split sep b)%list.
Proof. apply split_go_app. Qed.

(** X6: the values of two texts joined by a comma are the values of the
    first followed by those of the second, so text added after a comma never
    changes the values read before it; a comma at the end adds nothing, and
    no value read is NaN. *)
Theorem parseData_joined :
  (forall a b, parseData (a ++ "," ++ b) = (parseData a ++ parseData b)%list)
  /\ (forall a, parseData (a ++ ",") = parseData a)
  /\ (forall text v, v ∈ parseData text -> Num.isNaN v = false).
Proof.
  assert (forall a b,
            parseData (a ++ "," ++ b) = (parseData a ++ parseData b)%list) as H.
  { intros a b. unfold parseData. simpl.
    by rewrite split_app, List.map_app, List.filter_app. }
  split; [exact H|]. split.
  - intros a. change (a ++ ",") with (a ++ "," ++ "").
    rewrite (H a ""). change (parseData "") with (@nil float).
    by rewrite app_nil_r.
  - intros text v Hin. apply list_elem_of_In in Hin. unfold parseData in Hin.
    apply List.filter_In in Hin as [_ Hv]. by apply negb_true_iff in Hv.
Qed.

(** ** Printing a natural number and reading it back *)

Lemma digits_value_go fuel : forall n acc,
  0 <= n < 2 ^ Z.of_nat fuel ->
  digits_value (Str.digits_go fuel n acc)
  = n * 10 ^ Z.of_nat (String.length acc) + digits_value acc.
Proof.
  induction fuel as [|fuel IH]; intros n acc Hn.
  - simpl in *. assert (n = 0) by lia. subst. lia.
  - cbn [Str.digits_go].
    assert (Str.code (Str.chr (48 + n mod 10)) - 48 = n mod 10) as Hd.
    { pose proof (Z.mod_pos_bound n 10 ltac:(lia)) as Hm.
      unfold Str.code, Str.chr.
      rewrite N_ascii_embedding by lia. lia. }
    pose proof (Z.div_mod n 10 ltac:(lia)) as Hdm.
    destruct (n / 10 =? 0) eqn:E.
    + apply Z.eqb_eq in E. cbn [digits_value]. rewrite Hd. nia.
    + rewrite IH.
      * cbn [digits_value String.length]. rewrite Hd.
        rewrite Nat2Z.inj_succ, Z.pow_succ_r by lia. nia.
      * rewrite Nat2Z.inj_succ, Z.pow_succ_r in Hn by lia.
        split; [apply Z.div_pos; lia|].
        apply Z.div_lt_upper_bound; lia.
Qed.

Lemma digits_value_decimal n : 0 <= n -> digits_value (Str.decimal n) = n.
Proof.
  intros Hn. unfold Str.decimal. rewrite digits_value_go; [simpl; lia|].
  split; [done|].
  destruct (Z.eq_dec n 0) as [->|Hne]; [done|].
  rewrite Nat2Z.inj_succ, Z2Nat.id by apply Z.log2_nonneg.
  apply Z.log2_spec. lia.
Qed.

Lemma decimal_inj n m : 0 <= n -> 0 <= m -> Str.decimal n = Str.decimal m -> n = m.
Proof.
  intros Hn Hm H.
  by rewrite <- (digits_value_decimal n), <- (digits_value_decimal m), H.
Qed.

Ltac in_list := apply list_elem_of_In; simpl; tauto.

Lemma isEquationBased_spec controls :
  isEquationBased controls = true <-> equation_based controls.
Proof. unfold isEquationBased, equation_based. apply bool_decide_eq_true. Qed.







(** ** The three arrays of a series *)

Lemma samples_points evaluate expr xs :
  points (samples_of evaluate expr xs)
  = map XY.y (scatterData (samples_of evaluate expr xs)).
Proof.
  induction xs as [|x xs IH]; simpl in *; [done|].
  destruct (kept evaluate expr x); simpl; [f_equal|]; exact IH.
Qed.

Lemma samples_labels evaluate expr xs :
  labels (samples_of evaluate expr xs)
  = map (fun p => NumStr.toFixed (XY.x p) 1)
      (scatterData (samples_of evaluate expr xs)).
Proof.
  induction xs as [|x xs IH]; simpl in *; [done|].
  destruct (kept evaluate expr x); simpl; [f_equal|]; exact IH.
Qed.

Lemma samples_sublist evaluate expr xs :
  map XY.x (scatterData (samples_of evaluate expr xs)) `sublist_of` xs.
Proof.
  induction xs as [|x xs IH]; simpl in *; [done|].
  destruct (kept evaluate expr x); simpl.
  - by apply sublist_skip.
  - by apply sublist_cons.
Qed.

Lemma literal_points values :
  points (literal_series values) = map XY.y (scatterData (literal_series values))
  /\ map XY.x (scatterData (literal_series values))
     = map Num.of_nat (seq 0 (length values)).
Proof.
  simpl. split.
  - apply list_eq. intros i.
    rewrite list_lookup_fmap, list_lookup_imap.
    by destruct (values !! i).
  - apply list_eq. intros i.
    rewrite !list_lookup_fmap, list_lookup_imap.
    destruct (values !! i) eqn:E; simpl.
    + apply lookup_lt_Some in E. by rewrite lookup_seq_lt.
    + apply lookup_ge_None in E. by rewrite lookup_seq_ge.
Qed.

(** What a run of the builder that returns has made. *)
Lemma build_result evaluate fuel controls e s err :
  build evaluate fuel controls e = Some (s, err) ->
  s = defaultResult
  \/ (~ equation_based controls /\ s = literal_series (parseData (data controls)))
  \/ (equation_based controls
      /\ exists n,
           (forall k, (k < n)%nat ->
              PrimFloat.leb (x_at (step controls) k (xMin controls)) (xMax controls) = true)
           /\ s = samples_of evaluate (expr_of controls)
                    (xs_from (step controls) n (xMin controls))).
Proof.
  destruct (decide (equation_based controls)) as [H|H].
  - rewrite build_equation by done.
    destruct (Str.truthy _); [|intros [= <- <-]; by left].
    destruct (evaluate _ _); [intros [= <- <-]; by left|].
    destruct (for_loop _ _ _ _ _ _ _) as [s'|] eqn:E; [|done].
    apply for_loop_Some in E as (n & _ & Hk & _ & ->).
    rewrite series_app_nil_l.
    destruct (points _); intros [= <- <-]; [by left|].
    right. right. split; [done|]. by exists n.
  - rewrite build_literal by done.
    destruct (parseData _) eqn:E; intros [= <- <-]; [by left|].
    by right; left.
Qed.

(** X7: in every series the builder returns, the points are the [y] of the
    scatter data, index by index; on an equation-based graph the labels are
    the [x] of the scatter data in one decimal and these [x] are values of
    the loop variable, in the order of the loop; on a literal graph the [x]
    are the indices 0, 1, 2, ... *)
Theorem build_arrays_agree evaluate fuel controls e s err :
  build evaluate fuel controls e = Some (s, err) ->
  points s = map XY.y (scatterData s)
  /\ (equation_based controls ->
      labels s = map (fun p => NumStr.toFixed (XY.x p) 1) (scatterData s)
      /\ exists n,
           map XY.x (scatterData s)
             `sublist_of` xs_from (step controls) n (xMin controls)
           /\ Forall (fun x => PrimFloat.leb x (xMax controls) = true)
                (map XY.x (scatterData s)))
  /\ (~ equation_based controls ->
      map XY.x (scatterData s) = map Num.of_nat (seq 0 (length (points s)))).
Proof.
  intros Hb. apply build_result in Hb as [-> | [[Hl ->] | [Heq (n & Hk & ->)]]].
  - split; [done|]. split; [|done]. intros _. split; [done|].
    exists O. split; [done|]. constructor.
  - split; [apply literal_points|]. split; [done|].
    intros _. apply literal_points.
  - split; [apply samples_points|]. split; [|done].
    intros _. split; [apply samples_labels|]. exists n.
    split; [apply samples_sublist|].
    apply Forall_forall. intros x Hx.
    assert (x ∈ xs_from (step controls) n (xMin controls)) as Hin.
    { eapply elem_of_sublist; [exact Hx|apply samples_sublist]. }
    apply xs_from_elem in Hin as (k & Hlt & ->). by apply Hk.
Qed.

Lemma build_arrays_agree_witness :
  points Inputs.squares = map XY.y (scatterData Inputs.squares)
  /\ (equation_based Demo.parabola ->
      labels Inputs.squares
      = map (fun p => NumStr.toFixed (XY.x p) 1) (scatterData Inputs.squares)
      /\ exists n,
           map XY.x (scatterData Inputs.squares)
             `sublist_of` xs_from (step Demo.parabola) n (xMin Demo.parabola)
           /\ Forall (fun x => PrimFloat.leb x (xMax Demo.parabola) = true)
                (map XY.x (scatterData Inputs.squares)))
  /\ (~ equation_based Demo.parabola ->
      map XY.x (scatterData Inputs.squares)
      = map Num.of_nat (seq 0 (length (points Inputs.squares)))).
Proof.
  apply (build_arrays_agree Demo.evaluate 6 Demo.parabola None Inputs.squares None).
  vm_compute. reflexivity.
Defined.

(** X8: the labels of a literal series are pairwise distinct. *)
Theorem literal_labels_distinct evaluate fuel controls e s err :
  ~ equation_based controls ->
  build evaluate fuel controls e = Some (s, err) ->
  NoDup (labels s).
Proof.
  intros Hl Hb. apply build_result in Hb as [-> | [[_ ->] | [Heq _]]];
    [constructor| |done].
  simpl.
  rewrite (imap_seq_0 _ (fun i => "Value " ++ Str.decimal (Z.of_nat i + 1))).
  apply NoDup_fmap_2_strong; [|apply NoDup_seq].
  intros i j _ _ Hij. simpl in Hij. injection Hij as Hij.
  apply decimal_inj in Hij; lia.
Qed.

Lemma literal_labels_distinct_witness :
  NoDup (labels (literal_series [10; 20; 30; 40; 50]%float)).
Proof.
  apply (literal_labels_distinct Demo.evaluate 0 Demo.bars None _ None).
  - apply (bool_decide_unpack _). vm_compute. exact I.
  - vm_compute. reflexivity.
Defined.

(** X9: an empty domain gives no sample: when [xMin <= xMax] fails (the
    range is reversed, or a bound is NaN), the builder of a validated
    expression returns at once with "No valid points generated". *)
Theorem empty_domain_no_points evaluate fuel controls e y1 :
  equation_based controls ->
  Str.truthy (expr_of controls) = true ->
  evaluate (expr_of controls) 1%float = Returned y1 ->
  PrimFloat.leb (xMin controls) (xMax controls) = false ->
  build evaluate (S fuel) controls e
  = Some (defaultResult, Some "No valid points generated").
Proof.
  intros Hty Hex Hev Hle.
  rewrite (build_sampled evaluate (S fuel) controls e O y1); try done; lia.
Qed.

Lemma empty_domain_no_points_witness :
  build Demo.evaluate 1 Inputs.reversed None
  = Some (defaultResult, Some "No valid points generated").
Proof.
  apply (empty_domain_no_points Demo.evaluate 0 Inputs.reversed None 1%float).
  - apply (bool_decide_unpack _). vm_compute. exact I.
  - vm_compute. reflexivity.
  - vm_compute. reflexivity.
  - vm_compute. reflexivity.
Defined.

(** ** The form and the state of [App] *)

(** A text typed in a number input never puts NaN in the controls. *)
Lemma change_number_numbers controls field text controls' :
  numbers controls ->
  change_number controls field (inl text) = Changed controls' ->
  numbers controls'.
Proof.
  intros (H1 & H2 & H3). unfold change_number.
  destruct (Num.isNaN (NumStr.parseFloat text)) eqn:E; [done|].
  intros [= <-]. destruct field; simpl; done.
Qed.

Lemma App_step_numbers controls controls' :
  numbers controls -> App_step controls controls' -> numbers controls'.
Proof.
  intros Hn (field & value & Hoff & Hch). revert Hch.
  destruct Hoff as [k Hk|text Hb|text Hb|text Hb|text Hb|text Hb];
    simpl; intros Hch.
  - injection Hch as <-. exact Hn.
  - injection Hch as <-. exact Hn.
  - injection Hch as <-. exact Hn.
  - exact (change_number_numbers controls Field.xMin text _ Hn Hch).
  - exact (change_number_numbers controls Field.xMax text _ Hn Hch).
  - exact (change_number_numbers controls Field.step text _ Hn Hch).
Qed.

(** X10: whatever is typed and clicked in the form, no number field of the
    controls ever holds NaN: a text that does not parse as a number is
    ignored. *)
Theorem controls_never_nan controls :
  rtc App_step initial controls -> numbers controls.
Proof.
  revert controls. apply rtc_ind_r.
  - by vm_compute.
  - intros c c' _ Hstep IH. by eapply App_step_numbers.
Qed.

Lemma controls_never_nan_witness :
  numbers (with_number initial Field.step 0%float).
Proof.
  apply controls_never_nan. apply rtc_once.
  exists Field.step, (inl "0").
  split; [apply offers_step; reflexivity|vm_compute; reflexivity].
Defined.

(** A text that does not parse is ignored; one that parses changes the field
    it is typed in, and no other. *)
Lemma change_number_text controls field text :
  field ∈ [Field.xMin; Field.xMax; Field.step] ->
  if Num.isNaN (NumStr.parseFloat text)
  then change_number controls field (inl text) = Ignored
  else exists controls',
         change_number controls field (inl text) = Changed controls'
         /\ (forall other, other <> field -> agree other controls controls')
         /\ match field with
            | Field.xMin => xMin controls' = NumStr.parseFloat text
            | Field.xMax => xMax controls' = NumStr.parseFloat text
            | _ => step controls' = NumStr.parseFloat text
            end.
Proof.
  intros Hin. unfold change_number.
  destruct (Num.isNaN (NumStr.parseFloat text)); [done|].
  eexists. split; [done|].
  apply list_elem_of_In in Hin. simpl in Hin.
  destruct Hin as [<-|[<-|[<-|[]]]]; (split; [|done]);
    intros other Hne; by destruct other.
Qed.

(** X11: the form does not check the step.  A text that reads as zero, typed
    in the step input of an equation-based graph, is stored, and on the new
    controls [Graph] never returns. *)
Theorem zero_step_text_never_returns evaluate fuel controls text e y1 :
  equation_based controls ->
  Str.truthy (expr_of controls) = true ->
  evaluate (expr_of controls) 1%float = Returned y1 ->
  PrimFloat.leb (xMin controls) (xMax controls) = true ->
  PrimFloat.eqb (NumStr.parseFloat text) 0 = true ->
  exists controls',
    offers controls Field.step (inl text)
    /\ handleChange controls Field.step (inl text) = Changed controls'
    /\ build evaluate fuel controls' e = None.
Proof.
  intros Hty Hex Hev Hle Hz.
  assert (Num.isNaN (NumStr.parseFloat text) = false) as Hn.
  { unfold Num.isNaN.
    destruct (PrimFloat.is_nan (NumStr.parseFloat text)) eqn:E; [|done].
    apply is_nan_Prim2SF in E. rewrite FloatAxioms.eqb_spec, E in Hz.
    discriminate Hz. }
  eexists. split; [|split].
  - constructor. by apply isEquationBased_spec.
  - simpl. unfold change_number. by rewrite Hn.
  - rewrite build_equation by exact Hty.
    change (expr_of _) with (expr_of controls). cbn [xMin xMax step].
    rewrite Hex, Hev. by rewrite zero_step_diverges.
Qed.

Lemma zero_step_text_never_returns_witness :
  exists controls',
    offers Demo.parabola Field.step (inl "0")
    /\ handleChange Demo.parabola Field.step (inl "0") = Changed controls'
    /\ build Demo.evaluate 1000 controls' None = None.
Proof.
  apply (zero_step_text_never_returns Demo.evaluate 1000 Demo.parabola "0"
           None 1%float).
  - apply (bool_decide_unpack _). vm_compute. exact I.
  - vm_compute. reflexivity.
  - vm_compute. reflexivity.
  - vm_compute. reflexivity.
  - vm_compute. reflexivity.
Defined.

(** ** A domain without upper bound *)

Lemma binary_round_aux_not_nan sx mx ex lx :
  0 <= mx -> binary_round_aux prec emax sx mx ex lx <> S754_nan.
Proof.
  intros H. unfold binary_round_aux.
  pose proof (shr_fexp_nonneg mx ex lx H) as H1.
  destruct (shr_fexp prec emax mx ex lx) as [mrs' e'].
  cbn [fst] in H1.
  pose proof (shr_fexp_nonneg _ e' loc_Exact
                (round_nearest_even_nonneg _ (loc_of_shr_record mrs') H1)) as H2.
  destruct (shr_fexp prec emax _ e' loc_Exact) as [mrs'' e''].
  cbn [fst] in H2.
  destruct (shr_m mrs'') as [|m|m].
  - discriminate.
  - destruct (e'' <=? emax - prec); discriminate.
  - lia.
Qed.

Lemma binary_normalize_not_nan m e :
  binary_normalize prec emax m e false <> S754_nan.
Proof.
  unfold binary_normalize, binary_round.
  destruct m as [|p|p]; [discriminate| |];
    destruct (shl_align _ _ _) as [mz ez];
    apply binary_round_aux_not_nan; lia.
Qed.

Lemma is_finite_Prim2SF s :
  PrimFloat.is_finite s = true ->
  match Prim2SF s with
  | S754_zero _ | S754_finite _ _ _ => True
  | _ => False
  end.
Proof.
  unfold PrimFloat.is_finite, PrimFloat.is_infinity.
  intros H. apply negb_true_iff, orb_false_iff in H as [Hn Hi].
  apply is_nan_false_Prim2SF in Hn.
  rewrite FloatAxioms.eqb_spec, FloatAxioms.abs_spec in Hi.
  change (Prim2SF PrimFloat.infinity) with (S754_infinity false) in Hi.
  destruct (Prim2SF s) as [b|b| |b m e]; try done.
Qed.

(** Adding a finite number to a number gives a number. *)
Lemma add_finite_not_nan x s :
  PrimFloat.is_nan x = false -> PrimFloat.is_finite s = true ->
  PrimFloat.is_nan (x + s) = false.
Proof.
  intros Hx Hs%is_finite_Prim2SF.
  apply is_nan_false_Prim2SF in Hx. apply is_nan_false_Prim2SF.
  rewrite FloatAxioms.add_spec. unfold SF64add, SFadd.
  destruct (Prim2SF x) as [bx|bx| |bx mx ex], (Prim2SF s) as [bs|bs| |bs ms es];
    try done.
  - by destruct bx, bs.
  - apply binary_normalize_not_nan.
Qed.

Lemma leb_infinity x :
  PrimFloat.is_nan x = false -> PrimFloat.leb x PrimFloat.infinity = true.
Proof.
  intros Hx%is_nan_false_Prim2SF. rewrite FloatAxioms.leb_spec.
  change (Prim2SF PrimFloat.infinity) with (S754_infinity false).
  by destruct (Prim2SF x) as [b|[]| |b m e].
Qed.

Lemma unbounded_loop_diverges evaluate fuel expr step : forall x s,
  PrimFloat.is_nan x = false -> PrimFloat.is_finite step = true ->
  for_loop evaluate fuel expr PrimFloat.infinity step x s = None.
Proof.
  induction fuel as [|fuel IH]; intros x s Hx Hs; simpl; [done|].
  rewrite leb_infinity by done. apply IH; [|done].
  by apply add_finite_not_nan.
Qed.

(** X12: with [xMax] infinite the sampler never returns, whatever the finite
    step, positive or not. *)
Theorem infinite_xMax_never_returns evaluate fuel controls e y1 :
  equation_based controls ->
  Str.truthy (expr_of controls) = true ->
  evaluate (expr_of controls) 1%float = Returned y1 ->
  xMax controls = PrimFloat.infinity ->
  Num.isNaN (xMin controls) = false ->
  Num.isFinite (step controls) = true ->
  build evaluate fuel controls e = None.
Proof.
  intros Hty Hex Hev Hinf Hlo Hst.
  rewrite build_equation, Hex, Hev, Hinf by done.
  by rewrite unbounded_loop_diverges.
Qed.

Lemma infinite_xMax_never_returns_witness :
  build Demo.evaluate 1000 Inputs.unbounded None = None.
Proof.
  apply (infinite_xMax_never_returns Demo.evaluate 1000 Inputs.unbounded None
           1%float).
  - apply (bool_decide_unpack _). vm_compute. exact I.
  - vm_compute. reflexivity.
  - vm_compute. reflexivity.
  - reflexivity.
  - vm_compute. reflexivity.
  - vm_compute. reflexivity.
Defined.

(** ** What [Graph] renders *)

(** X13: [Graph] renders the error panel or a chart, never an empty chart:
    the panel shows the message the builder set, which is one of four, and
    the series is then empty; the chart is the component of the graph type
    with the chart data of a series that is not empty. *)
Theorem Graph_error_or_chart evaluate fuel controls e r e' :
  Graph evaluate fuel controls e = Some (r, e') ->
  (exists message,
     r = ErrorPanel message /\ e' = Some message
     /\ build evaluate fuel controls e = Some (defaultResult, Some message)
     /\ message ∈ ["Please enter valid comma-separated numbers";
                   "Please enter an equation"; "Invalid equation format";
                   "No valid points generated"])
  \/ (exists s,
        r = ChartElement (component_of (type controls)) (chartData controls s)
              (chartOptions controls)
        /\ e' = None
        /\ build evaluate fuel controls e = Some (s, None)
        /\ points s <> []).
Proof.
  unfold Graph, mbind, run_bind.
  destruct (build evaluate fuel controls e) as [[s err]|] eqn:Hb; [|done].
  intros [= <- <-].
  destruct (decide (equation_based controls)) as [H|H].
  - rewrite build_equation in Hb by done.
    destruct (Str.truthy _).
    2:{ injection Hb as <- <-. left. eexists. repeat (split; [done|]). in_list. }
    destruct (evaluate _ _).
    { injection Hb as <- <-. left. eexists. repeat (split; [done|]). in_list. }
    destruct (for_loop _ _ _ _ _ _ _) as [s'|]; [|done].
    destruct (points s') eqn:Ep; injection Hb as <- <-.
    + left. eexists. repeat (split; [done|]). in_list.
    + right. exists s'. repeat (split; [done|]). by rewrite Ep.
  - rewrite build_literal in Hb by done.
    destruct (parseData _) eqn:Ep; injection Hb as <- <-.
    + left. eexists. repeat (split; [done|]). in_list.
    + right. eexists. repeat (split; [done|]). done.
Qed.

Lemma Graph_error_or_chart_witness :
  (exists message,
     ErrorPanel "Invalid equation format" = ErrorPanel message
     /\ Some "Invalid equation format" = Some message
     /\ build Demo.evaluate 0 Demo.bogus None = Some (defaultResult, Some message)
     /\ message ∈ ["Please enter valid comma-separated numbers";
                   "Please enter an equation"; "Invalid equation format";
                   "No valid points generated"])
  \/ (exists s,
        ErrorPanel "Invalid equation format"
        = ChartElement (component_of (type Demo.bogus)) (chartData Demo.bogus s)
            (chartOptions Demo.bogus)
        /\ Some "Invalid equation format" = None
        /\ build Demo.evaluate 0 Demo.bogus None = Some (s, None)
        /\ points s <> []).
Proof.
  apply (Graph_error_or_chart Demo.evaluate 0 Demo.bogus None).
  vm_compute. reflexivity.
Defined.

(** X14: the component, the shape of the data and the scales fit together:
    the Scatter component, and it alone, gets points without labels and a
    linear x scale; Line and Bar get labelled values and a category x scale;
    Pie, Doughnut and Radar get labelled values and no scales. *)
Theorem chart_parts_fit controls s :
  match component_of (type controls) with
  | Scatter =>
      Chart.labels (chartData controls s) = None
      /\ (exists d ps, Chart.datasets (chartData controls s) = [d]
                       /\ Chart.data d = Chart.Points ps)
      /\ scales (chartOptions controls) = Some linear
  | Line | Bar =>
      Chart.labels (chartData controls s) = Some (labels s)
      /\ (exists d, Chart.datasets (chartData controls s) = [d]
                    /\ Chart.data d = Chart.Values (points s))
      /\ scales (chartOptions controls) = Some category
  | Pie | Doughnut | Radar =>
      Chart.labels (chartData controls s) = Some (labels s)
      /\ (exists d, Chart.datasets (chartData controls s) = [d]
                    /\ Chart.data d = Chart.Values (points s))
      /\ scales (chartOptions controls) = None
  end.
Proof.
  destruct controls as [ty eq dat lo hi st].
  destruct ty; simpl; (split; [reflexivity|]); (split; [|reflexivity]);
    repeat eexists.
Qed.

(** ** The shape of [toFixed(f)] *)

Lemma all_digits_app a b :
  all_digits (a ++ b) = all_digits a && all_digits b.
Proof.
  induction a as [|c a IH]; simpl; [done|].
  by rewrite IH, andb_assoc.
Qed.

Lemma str_length_app (a b : string) :
  String.length (a ++ b) = (String.length a + String.length b)%nat.
Proof. induction a as [|c a IH]; simpl; [done|]. by rewrite IH. Qed.

Lemma zeros_digits n :
  all_digits (string_of_list_ascii (List.repeat "0"%char n)) = true
  /\ String.length (string_of_list_ascii (List.repeat "0"%char n)) = n.
Proof. induction n as [|n [IH1 IH2]]; simpl; [done|]. by rewrite IH1, IH2. Qed.

Lemma pad_digits f ds :
  all_digits ds = true -> (1 <= String.length ds)%nat ->
  all_digits (NumStr.pad f ds) = true
  /\ (f + 1 <= String.length (NumStr.pad f ds))%nat.
Proof.
  intros Hall Hlen. unfold NumStr.pad.
  destruct (String.length ds <=? f)%nat eqn:E.
  - apply Nat.leb_le in E.
    destruct (zeros_digits (f + 1 - String.length ds)) as [Hz Hl].
    rewrite all_digits_app, str_length_app, Hz, Hall, Hl. split; [done|lia].
  - apply Nat.leb_gt in E. split; [done|lia].
Qed.

Lemma exactly_digits_all s :
  all_digits s = true -> exactly_digits (String.length s) s = true.
Proof.
  induction s as [|c s IH]; simpl; [done|].
  intros [Hc Hs]%andb_prop. by rewrite Hc, IH.
Qed.

Lemma substring_all s : String.substring 0 (String.length s) s = s.
Proof. induction s as [|c s IH]; simpl; [done|]. by rewrite IH. Qed.

Lemma substring_none s : String.substring 0 0 s = "".
Proof. by destruct s. Qed.

(** A point before the last [f] of at least [f + 1] digits. *)
Lemma point_shape f j : forall ds seen,
  all_digits ds = true -> String.length ds = (S j + f)%nat ->
  digits_point
    (String.substring 0 (S j) ds ++ "." ++ String.substring (S j) f ds)
    seen f = true.
Proof.
  induction j as [|j IH]; intros [|c r] seen Hall Hlen; simpl in Hlen; try lia.
  - simpl in Hall. apply andb_prop in Hall as [Hc Hr].
    cbn [String.substring]. rewrite substring_none. cbn [String.append].
    cbn [digits_point]. rewrite Hc.
    change (Str.is_digit ".") with false. cbn [Ascii.eqb Bool.eqb andb].
    assert (String.length r = f) as <- by lia.
    by rewrite substring_all, exactly_digits_all.
  - simpl in Hall. apply andb_prop in Hall as [Hc Hr].
    cbn [String.substring String.append digits_point]. rewrite Hc.
    apply IH; [done|lia].
Qed.

Lemma point_digits f ds :
  all_digits ds = true -> (f + 1 <= String.length ds)%nat -> (1 <= f)%nat ->
  digits_point (NumStr.point f ds) false f = true
  /\ exists c r, NumStr.point f ds = String c r /\ Str.is_digit c = true.
Proof.
  intros Hall Hlen Hf. unfold NumStr.point.
  destruct f as [|f]; [lia|].
  assert (exists j, String.length ds - S f = S j /\ String.length ds = S j + S f)%nat
    as (j & -> & Hj) by (exists (String.length ds - S f - 1)%nat; lia).
  split; [by apply point_shape|].
  destruct ds as [|c r]; [simpl in Hlen; lia|].
  simpl in Hall. apply andb_prop in Hall as [Hc _].
  cbn [String.substring String.append]. eauto.
Qed.

Lemma fixed_decimals_signed f sgn ds :
  sgn = "" \/ sgn = "-" ->
  all_digits ds = true -> (f + 1 <= String.length ds)%nat -> (1 <= f)%nat ->
  fixed_decimals f (sgn ++ NumStr.point f ds) = true.
Proof.
  intros Hs Hall Hlen Hf.
  destruct (point_digits f ds Hall Hlen Hf) as (H & c & r & Hp & Hc).
  destruct Hs as [-> | ->]; cbn [String.append]; [|exact H].
  rewrite Hp in *. unfold fixed_decimals. by rewrite (digit_not_minus c Hc).
Qed.

(** A number of absolute value below [10^21] is printed by [toFixed(f)], for
    [f >= 1], as digits with [f] decimals, after a minus sign when it is
    below zero. *)
Lemma toFixed_decimals x f :
  (1 <= f)%nat ->
  PrimFloat.ltb (PrimFloat.abs x) 1e21 = true ->
  fixed_decimals f (NumStr.toFixed x f) = true.
Proof.
  intros Hf. rewrite FloatAxioms.ltb_spec, FloatAxioms.abs_spec.
  change (Prim2SF 1e21) with (S754_finite false 7629394531250000 17).
  pose proof (Prim2SF_valid x) as Hv. unfold NumStr.toFixed.
  destruct (Prim2SF x) as [s|s| |s m e]; cbn [SFabs].
  - intros _.
    destruct (pad_digits f (Str.decimal 0)) as [Hall Hlen];
      [apply decimal_all|apply decimal_length|].
    apply (fixed_decimals_signed f ""); auto.
  - intros Hlt. discriminate Hlt.
  - intros Hlt. discriminate Hlt.
  - intros Hlt. cbn [valid_binary] in Hv.
    pose proof (below_1e21 m e Hv Hlt) as Hsmall.
    destruct (NumStr.ratio m e) as [num den]. cbn [fst snd] in Hsmall.
    rewrite Hsmall.
    destruct (pad_digits f (Str.decimal (NumStr.scaled num den f)))
      as [Hall Hlen]; [apply decimal_all|apply decimal_length|].
    apply fixed_decimals_signed; [destruct s; auto|done..].
Qed.

(** X15: the tooltip shows the value with two decimals, after the label of
    the dataset and a colon when the dataset has a label. *)
Theorem tooltip_two_decimals label y :
  PrimFloat.ltb (PrimFloat.abs y) 1e21 = true ->
  let heading :=
    match label with
    | Some (String c l) => String c l ++ ": "
    | _ => ""
    end in
  tooltipLabel label None = heading
  /\ tooltipLabel label (Some y) = heading ++ NumStr.toFixed y 2
  /\ fixed_decimals 2 (NumStr.toFixed y 2) = true.
Proof.
  intros Hy. split; [|split].
  - by destruct label as [[|c l]|].
  - by destruct label as [[|c l]|].
  - by apply toFixed_decimals; [lia|].
Qed.

Lemma tooltip_two_decimals_witness :
  tooltipLabel (Some "x^2") None = "x^2: "
  /\ tooltipLabel (Some "x^2") (Some 2.25%float) = "x^2: " ++ NumStr.toFixed 2.25 2
  /\ fixed_decimals 2 (NumStr.toFixed 2.25 2) = true.
Proof.
  apply (tooltip_two_decimals (Some "x^2") 2.25%float).
  vm_compute. reflexivity.
Defined.

(** X16: in the chart data made of a series the builder returned, there are
    as many labels as values, and for scatter and bubble as many points as
    samples. *)
Theorem chart_labels_align evaluate fuel controls e s err :
  build evaluate fuel controls e = Some (s, err) ->
  exists d, Chart.datasets (chartData controls s) = [d]
    /\ match Chart.data d with
       | Chart.Values vs =>
           exists ls, Chart.labels (chartData controls s) = Some ls
                      /\ length ls = length vs
       | Chart.Points ps =>
           Chart.labels (chartData controls s) = None
           /\ length ps = length (points s)
       end.
Proof.
  intros Hb.
  assert (length (labels s) = length (points s)
          /\ length (scatterData s) = length (points s)) as [Hl Hs].
  { apply build_result in Hb as [-> | [[_ ->] | [_ (n & _ & ->)]]];
      [done|apply literal_lengths|apply samples_lengths]. }
  destruct controls as [ty eq dat lo hi st].
  destruct ty; simpl; eexists; (split; [reflexivity|]); simpl;
    try (by eexists); by rewrite length_map.
Qed.

Lemma chart_labels_align_witness :
  exists d, Chart.datasets (chartData Demo.parabola Inputs.squares) = [d]
    /\ match Chart.data d with
       | Chart.Values vs =>
           exists ls, Chart.labels (chartData Demo.parabola Inputs.squares) = Some ls
                      /\ length ls = length vs
       | Chart.Points ps =>
           Chart.labels (chartData Demo.parabola Inputs.squares) = None
           /\ length ps = length (points Inputs.squares)
       end.
Proof.
  apply (chart_labels_align Demo.evaluate 6 Demo.parabola None Inputs.squares None).
  vm_compute. reflexivity.
Defined.
